(** * mcp-cli: the protocol engine of the MCP client

    A shallow embedding of the Python sources

      - [src/mcp/validation/protocol_validator.py]
      - [src/mcp/messages/json_rpc_message.py]
      - [src/mcp/messages/error_codes.py], [src/mcp/messages/exceptions.py]
      - [src/mcp/transport/base/transport.py]
      - [src/mcp/transport/stdio/stdio_transport.py]
      - [src/mcp/client/standard_protocol_client.py]
      - [src/core/di.py], [src/core/config.py]

    Python values are a tagged union, dictionaries are insertion-ordered
    association lists, exceptions are values of a sum type, and the mutable
    objects ([StdioTransport], [StandardProtocolClient]) are records threaded
    through every call. *)

From Stdlib Require Import ZArith List String Bool Lia Sorted.
From Stdlib Require Import Floats.SpecFloat.
Import ListNotations.

Set Warnings "-register-all".

Local Open Scope string_scope.
Local Open Scope list_scope.
Local Open Scope Z_scope.

(* ================================================================= *)
(** ** Python values *)

Module Py.

(** What [json.loads] can produce, and what the client passes around.
    A Python [float] is an IEEE 754 binary64 value. *)
Inductive pyval : Type :=
| VNone
| VBool (b : bool)
| VInt (n : Z)
| VFloat (f : spec_float)
| VStr (s : string)
| VList (items : list pyval)
| VDict (entries : list (string * pyval)).

(** A [dict] with string keys, in insertion order. *)
Definition pydict : Type := list (string * pyval).

(** The builtin exceptions the modelled code can meet; all derive from
    [Exception]. *)
Inductive py_exception : Type :=
| ValueError (msg : string)
| JSONDecodeError
| UnicodeDecodeError
| TypeError
| AttributeError
| KeyError (key : string)
| OSError
| RuntimeError.

(** A call either returns or raises. *)
Inductive result (E A : Type) : Type :=
| Ok (a : A)
| Raise (e : E).
Arguments Ok {E A} a.
Arguments Raise {E A} e.

Definition bind {E A B} (r : result E A) (k : A -> result E B) : result E B :=
  match r with
  | Ok a => k a
  | Raise e => Raise e
  end.

(** [d.get(k)] as an option, [k in d], [d[k] = v]. *)
Fixpoint dict_get (d : pydict) (k : string) : option pyval :=
  match d with
  | [] => None
  | (k', v) :: d' => if String.eqb k k' then Some v else dict_get d' k
  end.

Definition dict_contains (k : string) (d : pydict) : bool :=
  match dict_get d k with
  | Some _ => true
  | None => false
  end.

Fixpoint dict_set (d : pydict) (k : string) (v : pyval) : pydict :=
  match d with
  | [] => [(k, v)]
  | (k', v') :: d' =>
      if String.eqb k k' then (k', v) :: d' else (k', v') :: dict_set d' k v
  end.

(** [d.get(k, default)] on a dict. *)
Definition dict_get_default (d : pydict) (k : string) (default : pyval) : pyval :=
  match dict_get d k with
  | Some v => v
  | None => default
  end.

(** [isinstance].  [bool] is a subclass of [int] in Python, so
    [isinstance(True, int)] holds. *)
Definition isinstance_str (v : pyval) : bool :=
  match v with VStr _ => true | _ => false end.

Definition isinstance_int (v : pyval) : bool :=
  match v with VInt _ | VBool _ => true | _ => false end.

Definition isinstance_bool (v : pyval) : bool :=
  match v with VBool _ => true | _ => false end.

Definition isinstance_dict (v : pyval) : bool :=
  match v with VDict _ => true | _ => false end.

Definition is_none (v : pyval) : bool :=
  match v with VNone => true | _ => false end.

(** [v == s] for a [str] literal [s]: only a [str] equals a [str]. *)
Definition eq_str (v : pyval) (s : string) : bool :=
  match v with
  | VStr s' => String.eqb s' s
  | _ => false
  end.

(** The mathematical value of a float compared with an integer; Python
    compares the two exactly. *)
Definition float_eq_int (f : spec_float) (n : Z) : bool :=
  match f with
  | S754_zero _ => n =? 0
  | S754_finite s m e =>
      let v := if s then Z.neg m else Z.pos m in
      if 0 <=? e then v * 2 ^ e =? n else v =? n * 2 ^ (- e)
  | S754_infinity _ | S754_nan => false
  end.

(** [v == n] for an [int] [n]: numbers compare by value across [bool], [int]
    and [float] ([True == 1], [1.0 == 1]); nothing else equals an [int]. *)
Definition eq_int (v : pyval) (n : Z) : bool :=
  match v with
  | VInt m => m =? n
  | VBool b => (if b then 1 else 0) =? n
  | VFloat f => float_eq_int f n
  | _ => false
  end.

(** Truth value of an object, as [if v:] and [not v] take it. *)
Definition truthy (v : pyval) : bool :=
  match v with
  | VNone => false
  | VBool b => b
  | VInt n => negb (n =? 0)
  | VFloat (S754_zero _) => false
  | VFloat _ => true
  | VStr EmptyString => false
  | VStr _ => true
  | VList [] => false
  | VList _ => true
  | VDict [] => false
  | VDict _ => true
  end.

(** Substring test, for [k in s] on a [str]. *)
Fixpoint is_substring (needle hay : string) : bool :=
  if String.prefix needle hay then true
  else match hay with
       | EmptyString => false
       | String _ hay' => is_substring needle hay'
       end.

(** [k in v] for a [str] key [k] and an arbitrary object [v]: key membership
    on a dict, element membership on a list, substring on a str, and
    [TypeError] on objects that are not containers. *)
Definition contains (k : string) (v : pyval) : result py_exception bool :=
  match v with
  | VDict d => Ok (dict_contains k d)
  | VList items => Ok (existsb (fun x => eq_str x k) items)
  | VStr s => Ok (is_substring k s)
  | VNone | VBool _ | VInt _ | VFloat _ => Raise TypeError
  end.

(** [v[k]] for a [str] key [k]: a lookup on a dict, [KeyError] when the key
    is missing; [TypeError] on every other object (a list or a str cannot be
    indexed by a str, the rest cannot be indexed at all). *)
Definition subscript (v : pyval) (k : string) : result py_exception pyval :=
  match v with
  | VDict d =>
      match dict_get d k with
      | Some x => Ok x
      | None => Raise (KeyError k)
      end
  | _ => Raise TypeError
  end.

(** [v.get(k)] and [v.get(k, default)]: only a dict has the method. *)
Definition get (v : pyval) (k : string) (default : pyval) : result py_exception pyval :=
  match v with
  | VDict d => Ok (dict_get_default d k default)
  | _ => Raise AttributeError
  end.

End Py.
Import Py.

(* ================================================================= *)
(** ** protocol_validator.py *)

Module ProtocolValidator.

(** [ProtocolValidator.validate_request]: [None] when valid, the message of
    the violated rule otherwise. *)
Definition validate_request (request : pydict) : option string :=
  match dict_get request "jsonrpc" with
  | None => Some "Missing required field: 'jsonrpc'"
  | Some jsonrpc =>
  if negb (eq_str jsonrpc "2.0") then Some "Invalid 'jsonrpc' value: must be '2.0'"
  else
  match dict_get request "method" with
  | None => Some "Missing required field: 'method'"
  | Some method =>
  if negb (isinstance_str method) then Some "Invalid 'method' type: must be a string"
  else
  match dict_get request "params" with
  | None => Some "Missing required field: 'params'"
  | Some params =>
  if negb (isinstance_dict params) then Some "Invalid 'params' type: must be an object"
  else
  match dict_get request "id" with
  | None => Some "Missing required field: 'id'"
  | Some id =>
  if negb (isinstance_str id || isinstance_int id)
  then Some "Invalid 'id' type: must be a string or number"
  else None
  end end end end.

(** The checks on the [error] member of a response. *)
Definition validate_error_member (error : pyval) : option string :=
  match error with
  | VDict error =>
      match dict_get error "code" with
      | None => Some "Missing required field in error: 'code'"
      | Some code =>
      if negb (isinstance_int code) then Some "Invalid error 'code' type: must be a number"
      else
      match dict_get error "message" with
      | None => Some "Missing required field in error: 'message'"
      | Some message =>
      if negb (isinstance_str message)
      then Some "Invalid error 'message' type: must be a string"
      else None
      end end
  | _ => Some "Invalid 'error' type: must be an object"
  end.

(** The check on the optional [partial] member. *)
Definition validate_partial_member (response : pydict) : option string :=
  match dict_get response "partial" with
  | Some partial =>
      if negb (isinstance_bool partial)
      then Some "Invalid 'partial' type: must be a boolean"
      else None
  | None => None
  end.

(** [ProtocolValidator.validate_response]. *)
Definition validate_response (response : pydict) : option string :=
  match dict_get response "jsonrpc" with
  | None => Some "Missing required field: 'jsonrpc'"
  | Some jsonrpc =>
  if negb (eq_str jsonrpc "2.0") then Some "Invalid 'jsonrpc' value: must be '2.0'"
  else
  match dict_get response "id" with
  | None => Some "Missing required field: 'id'"
  | Some id =>
  if negb (isinstance_str id || isinstance_int id) && negb (is_none id)
  then Some "Invalid 'id' type: must be a string, number, or null"
  else
  if negb (dict_contains "result" response) && negb (dict_contains "error" response)
  then Some "Missing required field: either 'result' or 'error' must be present"
  else
  if dict_contains "error" response && dict_contains "result" response
  then Some "Invalid response: cannot have both 'result' and 'error'"
  else
  match
    match dict_get response "error" with
    | Some error => validate_error_member error
    | None => None
    end
  with
  | Some msg => Some msg
  | None => validate_partial_member response
  end
  end end.

End ProtocolValidator.

(* ================================================================= *)
(** ** json_rpc_message.py *)

Module JsonRpcMessage.
Import ProtocolValidator.

(** [if error:] on the validator's answer: [None] and the empty string are
    false. *)
Definition error_is_truthy (error : option string) : bool :=
  match error with
  | Some (String _ _) => true
  | Some EmptyString | None => false
  end.

(** The envelope [create_request] builds, before it validates it. *)
Definition request_envelope (method params request_id : pyval) : pydict :=
  [ ("jsonrpc", VStr "2.0");
    ("method", method);
    ("params", params);
    ("id", request_id) ].

(** [create_request(method, params, request_id)].  Python does not enforce
    the annotations, so the three arguments are arbitrary objects. *)
Definition create_request (method params request_id : pyval)
  : result py_exception pydict :=
  let request := request_envelope method params request_id in
  let error := validate_request request in
  if error_is_truthy error then
    match error with
    | Some msg => Raise (ValueError (String.append "Invalid request: " msg))
    | None => Raise (ValueError "Invalid request: None")
    end
  else Ok request.

End JsonRpcMessage.

(* ================================================================= *)
(** ** transport/base/transport.py *)

Module TransportBase.

(** The text of a [TransportError], kept as the pieces its f-string is
    assembled from. *)
Inductive transport_message : Type :=
| NotConnected                              (* "Not connected to server" *)
| ConnectionClosed                          (* "Connection closed by server" *)
| InvalidJSON (line : string)               (* "Invalid JSON in response: {line}" *)
| IdMismatch (expected : Z) (got : pyval)   (* "Response ID mismatch: expected {..}, got {..}" *)
| ErrorSending (e : py_exception)           (* "Error sending message: {str(e)}" *)
| InvalidJSONStreaming (line : string)      (* "Invalid JSON in streaming response: {line}" *)
| ErrorStreaming (e : py_exception).        (* "Error in streaming message: {str(e)}" *)

(** [class TransportError(Exception)]. *)
Record TransportError : Type := mkTransportError {
  message : transport_message;
  cause : option py_exception
}.

(** What can escape from a call of a transport: its own error, another
    [Exception], or [asyncio.CancelledError].  The last one is a
    [BaseException]: no [except Exception] clause catches it.  It is raised
    at an [await] that has not completed when the task is cancelled; an
    [await] that never completes ends in no other way, so that a call which
    ends with [CancelledError] has not returned by itself.  The interface
    documents [TransportError] as what its methods raise; the protocol
    errors of [messages/exceptions.py] are the client's, and no transport of
    the repository raises one. *)
Inductive exn : Type :=
| Transport_exn (e : TransportError)
| Builtin_exn (e : py_exception)
| CancelledError.

(** [class Transport(ABC)]: the operations the protocol client calls, over
    the state [T] of the transport object. *)
Class Transport (T : Type) : Type := {
  connect : T -> T * result exn bool;
  disconnect : T -> T * result exn bool;
  send_message : pyval -> pyval -> T -> T * result exn pyval
}.

End TransportBase.
Import TransportBase.

(* ================================================================= *)
(** ** transport/stdio/stdio_transport.py *)

Module Stdio.
Import JsonRpcMessage.

(** What [response_line.decode().strip()] followed by [json.loads] makes of
    one line read from the peer. *)
Inductive decoded : Type :=
| Decoded (response : pyval)
| NotJSON           (* json.loads raises JSONDecodeError *)
| NotUTF8.          (* decode() raises UnicodeDecodeError *)

(** How the child answers [terminate()]. *)
Inductive reaction : Type :=
| Exits             (* it has exited when poll() is asked 100 ms later *)
| Lingers           (* it is still running then *)
| Refuses.          (* terminate() raises *)

(** The child process: [poll()] is [None] exactly while it runs.  A running
    child carries what [terminate()] and [kill()] are going to do. *)
Inductive Popen : Type :=
| Running (on_terminate : reaction) (kill_raises : bool)
| Terminated
| Killed
| Exited.

(** What [write()] does with the data on the pipe. *)
Inductive write_effect : Type :=
| Takes                      (* the data is on its way to the peer *)
| Drops                      (* the pipe is closing or has lost its peer: the
                                data is dropped, with a warning at most *)
| Fails (e : py_exception).  (* write() raises, as it does with RuntimeError
                                when it has to turn to an event loop that has
                                been closed *)

(** The transport that [connect_write_pipe] returns.  It takes [write] and
    [close]; it has no [drain], which is a method of [asyncio.StreamWriter]:
    [connect] builds none.  [close_raises]: the pipe is not closing yet and
    its event loop has been closed, so that [close()] raises. *)
Inductive write_transport : Type :=
| WritePipe (on_write : write_effect) (close_raises : bool).

(** What one [readline()] finds in the [StreamReader]. *)
Inductive arrival : Type :=
| Line (line : string)        (* the bytes up to the next newline, or up to
                                 the end of the stream *)
| Broken (e : py_exception).  (* readline() raises: ValueError on more bytes
                                 than the limit of the reader (64 KiB)
                                 without a newline, which it drops; or the
                                 exception the pipe was lost with *)

(** What a [readline()] finds once the arrivals are consumed: the end of the
    stream, or nothing at all, the pipe being open and the peer silent (or no
    pipe feeding the reader). *)
Inductive ending : Type :=
| Eof
| Silent.

(** [asyncio.StreamReader], as the bytes that are going to reach it. *)
Record StreamReader : Type := mkStreamReader {
  arrivals : list arrival;
  at_end : ending
}.

(** [class StdioTransport(Transport)].  [wire] is not a Python attribute: it
    records, oldest first, every envelope a pipe of this instance has
    taken. *)
Record StdioTransport : Type := mkStdioTransport {
  process : option Popen;
  reader : option StreamReader;
  writer : option write_transport;
  request_id : Z;
  wire : list pydict
}.

(** [StdioTransport.__init__]. *)
Definition init (process : option Popen) : StdioTransport :=
  {| process := process; reader := None; writer := None;
     request_id := 0; wire := [] |}.

Definition with_process (p : option Popen) (self : StdioTransport) :=
  {| process := p; reader := reader self; writer := writer self;
     request_id := request_id self; wire := wire self |}.

Definition with_reader (r : option StreamReader) (self : StdioTransport) :=
  {| process := process self; reader := r; writer := writer self;
     request_id := request_id self; wire := wire self |}.

Definition with_writer (w : option write_transport) (self : StdioTransport) :=
  {| process := process self; reader := reader self; writer := w;
     request_id := request_id self; wire := wire self |}.

Definition with_request_id (n : Z) (self : StdioTransport) :=
  {| process := process self; reader := reader self; writer := writer self;
     request_id := n; wire := wire self |}.

Definition with_wire (w : list pydict) (self : StdioTransport) :=
  {| process := process self; reader := reader self; writer := writer self;
     request_id := request_id self; wire := w |}.

(** *** connect and disconnect *)

(** What the event loop answers when [connect] asks for the two pipes: both
    (the reader will receive [incoming], the write pipe is [w]), or an
    exception on the first, or an exception on the second. *)
Inductive pipes : Type :=
| PipesOk (incoming : StreamReader) (w : write_transport)
| ReadPipeFails
| WritePipeFails (incoming : StreamReader).

(** [StdioTransport.connect]: the reader is assigned before the read pipe is
    requested, so a failure there leaves a [StreamReader] that nothing
    feeds; the writer is assigned only once the write pipe is there.  Both
    branches (child process, or [sys.stdin] and [sys.stdout]) do the same to
    the object.  [except Exception] answers [False].  The task is taken not
    to be cancelled while it waits for the pipes. *)
Definition connect (env : pipes) (self : StdioTransport) : StdioTransport * bool :=
  match env with
  | PipesOk incoming w =>
      (with_writer (Some w) (with_reader (Some incoming) self), true)
  | ReadPipeFails => (with_reader (Some (mkStreamReader [] Silent)) self, false)
  | WritePipeFails incoming => (with_reader (Some incoming) self, false)
  end.

(** [self.writer.close()].  When it raises, the pipe has been marked as
    closing by then: it drops what is written to it afterwards, and another
    [close()] does nothing.  The boolean says that it raised. *)
Definition close (w : write_transport) : write_transport * bool :=
  match w with
  | WritePipe _ true => (WritePipe Drops false, true)
  | WritePipe _ false => (w, false)
  end.

(** [self.process.poll() is None]. *)
Definition poll_is_None (p : Popen) : bool :=
  match p with
  | Running _ _ => true
  | Terminated | Killed | Exited => false
  end.

(** The inner [try]: [terminate()], 100 ms, then [kill()] if [poll()] is
    still [None]; an exception of either call is logged and dropped. *)
Definition terminate_then_kill (p : Popen) : Popen :=
  match p with
  | Running Exits _ => Terminated
  | Running Lingers false => Killed
  | Running Lingers true => p
  | Running Refuses _ => p
  | Terminated | Killed | Exited => p
  end.

(** [StdioTransport.disconnect]: when [close()] raises, the outer [except]
    answers [False] and reader and writer stay set.  The task is taken not
    to be cancelled during the 100 ms. *)
Definition disconnect (self : StdioTransport) : StdioTransport * bool :=
  match writer self with
  | Some w =>
      match close w with
      | (w, true) => (with_writer (Some w) self, false)
      | (_, false) =>
          let self := with_writer None (with_reader None self) in
          match process self with
          | Some p =>
              if poll_is_None p
              then (with_process (Some (terminate_then_kill p)) self, true)
              else (self, true)
          | None => (self, true)
          end
      end
  | None => (self, true)
  end.

(** *** The state and exception monad of a method body *)

Definition M (A : Type) : Type := StdioTransport -> StdioTransport * result exn A.

Definition ret {A} (a : A) : M A := fun self => (self, Ok a).

Definition raise {A} (e : exn) : M A := fun self => (self, Raise e).

Definition bindM {A B} (m : M A) (k : A -> M B) : M B :=
  fun self =>
    match m self with
    | (self', Ok a) => k a self'
    | (self', Raise e) => (self', Raise e)
    end.

Definition lift {A} (r : result py_exception A) : M A :=
  fun self =>
    match r with
    | Ok a => (self, Ok a)
    | Raise e => (self, Raise (Builtin_exn e))
    end.

Notation "x <- m ;; k" := (bindM m (fun x => k))
  (at level 100, m at next level, right associativity).

(** [self.writer.write(request_json.encode())].  The line is identified
    with the envelope it serialises. *)
Definition writer_write (request : pydict) : M unit :=
  fun self =>
    match writer self with
    | Some (WritePipe Takes _) => (with_wire (wire self ++ [request]) self, Ok tt)
    | Some (WritePipe Drops _) => (self, Ok tt)
    | Some (WritePipe (Fails e) _) => (self, Raise (Builtin_exn e))
    | None => (self, Raise (Builtin_exn AttributeError))
    end.

(** [await self.writer.drain()]: the object has no attribute [drain], so the
    lookup raises [AttributeError] before anything is awaited. *)
Definition writer_drain : M unit :=
  raise (Builtin_exn AttributeError).

(** The two statements that send the request. *)
Definition write (request : pydict) : M unit :=
  _ <- writer_write request ;;
  writer_drain.

(** [await self.reader.readline()].  On a silent source the read does not
    complete; the call then ends only by the cancellation of the task. *)
Definition readline : M string :=
  fun self =>
    match reader self with
    | Some r =>
        match arrivals r with
        | Line line :: rest => (with_reader (Some (mkStreamReader rest (at_end r))) self, Ok line)
        | Broken e :: rest =>
            (with_reader (Some (mkStreamReader rest (at_end r))) self, Raise (Builtin_exn e))
        | [] =>
            match at_end r with
            | Eof => (self, Ok EmptyString)
            | Silent => (self, Raise CancelledError)
            end
        end
    | None => (self, Raise (Builtin_exn AttributeError))
    end.

(** [not response_line]. *)
Definition is_empty (line : string) : bool :=
  match line with
  | EmptyString => true
  | String _ _ => false
  end.

(** The two [except] clauses that end both methods: [CancelledError] is
    raised again, a [TransportError] passes, any other [Exception] is
    wrapped in a [TransportError]. *)
Definition reraise (wrap : py_exception -> transport_message) (e : exn) : exn :=
  match e with
  | CancelledError => CancelledError
  | Transport_exn e => Transport_exn e
  | Builtin_exn e => Transport_exn (mkTransportError (wrap e) (Some e))
  end.

(** ["id" not in response or response["id"] != request_id]. *)
Definition id_mismatch (response : pyval) (request_id : Z) : result py_exception bool :=
  bind (contains "id" response) (fun present =>
  if negb present then Ok true
  else bind (subscript response "id") (fun id => Ok (negb (eq_int id request_id)))).

(** ["partial" not in response or not response["partial"]]. *)
Definition is_final (response : pyval) : result py_exception bool :=
  bind (contains "partial" response) (fun present =>
  if negb present then Ok true
  else bind (subscript response "partial") (fun partial => Ok (negb (truthy partial)))).

Section WithJson.

(** Python's [json.dumps] on a request and its decoding of a line are
    parameters of the transport.  Of [json.dumps] only whether it returns or
    raises matters here, the text being identified with the envelope. *)
Variable dumps : pydict -> result py_exception unit.
Variable loads : string -> decoded.

(** The inner [try] around decoding and [json.loads]. *)
Definition parse (invalid : string -> transport_message) (response_line : string) : M pyval :=
  match loads response_line with
  | Decoded response => ret response
  | NotJSON =>
      raise (Transport_exn (mkTransportError (invalid response_line) (Some JSONDecodeError)))
  | NotUTF8 => raise (Builtin_exn UnicodeDecodeError)
  end.

(** *** send_message *)

(** The [try] of both methods up to the drain: build the request,
    serialise it, write it. *)
Definition send_request (method params : pyval) (request_id : Z) : M unit :=
  request <- lift (create_request method params (VInt request_id)) ;;
  _ <- lift (dumps request) ;;
  write request.

(** The [try] of [send_message] after the drain: one [readline] and the
    checks on the line. *)
Definition receive_response (request_id : Z) : M pyval :=
  response_line <- readline ;;
  if is_empty response_line
  then raise (Transport_exn (mkTransportError ConnectionClosed None))
  else
    response <- parse InvalidJSON response_line ;;
    mismatch <- lift (id_mismatch response request_id) ;;
    if mismatch : bool
    then
      got <- lift (get response "id" VNone) ;;
      raise (Transport_exn (mkTransportError (IdMismatch request_id got) None))
    else ret response.

(** The body of the [try] of [send_message]. *)
Definition send_message_body (method params : pyval) (request_id : Z) : M pyval :=
  _ <- send_request method params request_id ;;
  receive_response request_id.

(** [StdioTransport.send_message]. *)
Definition send_message (method params : pyval) (self : StdioTransport)
  : StdioTransport * result exn pyval :=
  match writer self, reader self with
  | Some _, Some _ =>
      let self := with_request_id (request_id self + 1) self in
      match send_message_body method params (request_id self) self with
      | (self, Ok response) => (self, Ok response)
      | (self, Raise e) => (self, Raise (reraise ErrorSending e))
      end
  | _, _ => (self, Raise (Transport_exn (mkTransportError NotConnected None)))
  end.

(** *** send_streaming_message *)

(** The [while True] loop, from one [readline] to the next [yield]:
    [Ok (Some response)] reaches the [yield], [Ok None] is the [break] at the
    end of the stream. *)
Fixpoint read_responses (request_id : Z) (at_end : ending) (arrivals : list arrival)
  : list arrival * result exn (option pyval) :=
  match arrivals with
  | [] =>
      match at_end with
      | Eof => ([], Ok None)
      | Silent => ([], Raise CancelledError)
      end
  | Broken e :: rest => (rest, Raise (Builtin_exn e))
  | Line response_line :: rest =>
      if is_empty response_line then (rest, Ok None)
      else
        match loads response_line with
        | NotJSON =>
            (rest, Raise (Transport_exn
               (mkTransportError (InvalidJSONStreaming response_line) (Some JSONDecodeError))))
        | NotUTF8 => (rest, Raise (Builtin_exn UnicodeDecodeError))
        | Decoded response =>
            match id_mismatch response request_id with
            | Raise e => (rest, Raise (Builtin_exn e))
            | Ok true =>
                (* the warning formats response.get('id'), then continue *)
                match get response "id" VNone with
                | Raise e => (rest, Raise (Builtin_exn e))
                | Ok _ => read_responses request_id at_end rest
                end
            | Ok false => (rest, Ok (Some response))
            end
        end
  end.

(** The async generator object: its body has not started, or it is parked at
    the [yield] with the response it produced, or it has returned. *)
Inductive generator : Type :=
| Created (method params : pyval)
| Suspended (request_id : Z) (response : pyval)
| Finished.

(** What one resumption ([__anext__]) gives the consumer. *)
Inductive resumption : Type :=
| Yield (response : pyval)
| StopAsyncIteration
| Raised (e : exn).

(** Run the loop on the reader until the generator yields, returns or
    raises. *)
Definition run_loop (request_id : Z) (self : StdioTransport)
  : StdioTransport * generator * resumption :=
  match reader self with
  | None =>
      (self, Finished,
       Raised (reraise ErrorStreaming (Builtin_exn AttributeError)))
  | Some r =>
      let '(rest, outcome) := read_responses request_id (at_end r) (arrivals r) in
      let self := with_reader (Some (mkStreamReader rest (at_end r))) self in
      match outcome with
      | Ok (Some response) => (self, Suspended request_id response, Yield response)
      | Ok None => (self, Finished, StopAsyncIteration)
      | Raise e => (self, Finished, Raised (reraise ErrorStreaming e))
      end
  end.

(** [StdioTransport.send_streaming_message], one resumption at a time.  The
    body of an async generator starts at its first resumption. *)
Definition anext (g : generator) (self : StdioTransport)
  : StdioTransport * generator * resumption :=
  match g with
  | Created method params =>
      match writer self, reader self with
      | Some _, Some _ =>
          let self := with_request_id (request_id self + 1) self in
          let request_id := request_id self in
          match send_request method params request_id self with
          | (self, Ok _) => run_loop request_id self
          | (self, Raise e) => (self, Finished, Raised (reraise ErrorStreaming e))
          end
      | _, _ =>
          (self, Finished, Raised (Transport_exn (mkTransportError NotConnected None)))
      end
  | Suspended request_id response =>
      match is_final response with
      | Ok true => (self, Finished, StopAsyncIteration)
      | Ok false => run_loop request_id self
      | Raise e => (self, Finished, Raised (reraise ErrorStreaming (Builtin_exn e)))
      end
  | Finished => (self, Finished, StopAsyncIteration)
  end.

(** How an iteration over the generator ends. *)
Inductive completion : Type :=
| Completed
| Failed (e : exn).

(** [async for response in generator]: the consumer resumes the generator at
    most [resumptions] times; [None] when it stopped asking before the
    generator was done. *)
Fixpoint async_for (resumptions : nat) (g : generator) (self : StdioTransport)
  : StdioTransport * list pyval * option completion :=
  match resumptions with
  | O => (self, [], None)
  | S n =>
      match anext g self with
      | (self, g, Yield response) =>
          let '(self, responses, c) := async_for n g self in
          (self, response :: responses, c)
      | (self, _, StopAsyncIteration) => (self, [], Some Completed)
      | (self, _, Raised e) => (self, [], Some (Failed e))
      end
  end.

End WithJson.

End Stdio.

(* ================================================================= *)
(** ** messages/error_codes.py, messages/message_method.py *)

Module ErrorCodes.
Definition PARSE_ERROR : Z := -32700.
Definition INVALID_REQUEST : Z := -32600.
Definition METHOD_NOT_FOUND : Z := -32601.
Definition INVALID_PARAMS : Z := -32602.
Definition INTERNAL_ERROR : Z := -32603.
Definition INITIALIZATION_FAILED : Z := 1000.
Definition INVALID_TOOL : Z := 1100.
Definition TOOL_EXECUTION_FAILED : Z := 1101.
Definition INVALID_PROMPT : Z := 1200.
Definition PROMPT_NOT_FOUND : Z := 1201.
Definition INVALID_RESOURCE : Z := 1300.
Definition RESOURCE_NOT_FOUND : Z := 1301.
End ErrorCodes.

Module MessageMethod.
Definition INITIALIZE : string := "initialize".
Definition SHUTDOWN : string := "shutdown".
Definition TOOLS_CALL : string := "tools/call".
Definition PROMPTS_GET : string := "prompts/get".
Definition RESOURCES_GET : string := "resources/get".
End MessageMethod.

(* ================================================================= *)
(** ** messages/exceptions.py *)

Module Exceptions.

(** The classes of the module: [MCPProtocolError] and its subclasses. *)
Inductive error_class : Type :=
| MCPProtocolError_class
| ParseError_class
| InvalidRequestError_class
| MethodNotFoundError_class
| InvalidParamsError_class
| InternalError_class
| InitializationError_class
| InvalidToolError_class
| ToolExecutionError_class
| FileNotFoundError_class
| PermissionDeniedError_class
| IOError_class
| InvalidPathError_class
| DatabaseError_class
| TableNotFoundError_class.

(** The text of a protocol error, kept as the pieces its f-string is
    assembled from. *)
Inductive error_message : Type :=
| Text (s : string)
| FromServer (message : pyval)                        (* error.get("message", ..) *)
| InvalidToolText (tool : string)                     (* "Invalid tool: {tool}" *)
| ToolFailedText (tool : string) (message : error_message)
                                      (* "Tool execution failed ({tool}): {message}" *)
| TransportText (message : transport_message)         (* "Transport error: {e.message}" *)
| UnexpectedText (e : py_exception).                  (* "Unexpected error: {str(e)}" *)

(** The [data] attribute: what the server sent, or the dict
    [{"cause": str(e.cause) if e.cause else None}]. *)
Inductive error_data : Type :=
| Data (data : pyval)
| Cause (cause : option py_exception).

(** An instance of [MCPProtocolError] or of one of its subclasses. *)
Record MCPProtocolError : Type := mkMCPProtocolError {
  class_of : error_class;
  message : error_message;
  code : pyval;
  data : error_data
}.

(** [MCPProtocolError(message, code, data)]. *)
Definition MCPProtocolError_new (message : error_message) (code : pyval) (data : error_data) :=
  mkMCPProtocolError MCPProtocolError_class message code data.

(** [message or ErrorCodes.get_message(..)]: the truth value of the message. *)
Definition message_truthy (m : error_message) : bool :=
  match m with
  | Text s => truthy (VStr s)
  | FromServer v => truthy v
  | _ => true
  end.

(** [InitializationError(message, data)]. *)
Definition InitializationError (message : error_message) (data : error_data) :=
  mkMCPProtocolError InitializationError_class
    (if message_truthy message then message else Text "Initialization failed")
    (VInt ErrorCodes.INITIALIZATION_FAILED) data.

(** [InvalidToolError(tool, data)]. *)
Definition InvalidToolError (tool : string) (data : error_data) :=
  mkMCPProtocolError InvalidToolError_class (InvalidToolText tool)
    (VInt ErrorCodes.INVALID_TOOL) data.

(** [ToolExecutionError(tool, message, data)]. *)
Definition ToolExecutionError (tool : string) (message : error_message) (data : error_data) :=
  mkMCPProtocolError ToolExecutionError_class (ToolFailedText tool message)
    (VInt ErrorCodes.TOOL_EXECUTION_FAILED) data.

End Exceptions.

Module Client.
Import Exceptions.

(** What can be in flight inside a method of the client. *)
Inductive client_exn : Type :=
| Protocol_exn (e : MCPProtocolError)
| Other_exn (e : exn).

Definition from_python {A} (r : result py_exception A) : result client_exn A :=
  match r with
  | Ok a => Ok a
  | Raise e => Raise (Other_exn (Builtin_exn e))
  end.

Definition from_transport {A} (r : result exn A) : result client_exn A :=
  match r with
  | Ok a => Ok a
  | Raise e => Raise (Other_exn e)
  end.

(** A clause [except Exception] whose handler returns [default]: it catches
    everything but [CancelledError]. *)
Definition except_Exception {A} (default : A) (e : exn) : result client_exn A :=
  match e with
  | Transport_exn _ | Builtin_exn _ => Ok default
  | CancelledError => Raise (Other_exn CancelledError)
  end.

Notation "x <- r ;; k" := (bind r (fun x => k))
  (at level 100, r at next level, right associativity).

(** [class StandardProtocolClient(ProtocolClient)]. *)
Record StandardProtocolClient (T : Type) : Type := mkClient {
  transport : T;
  capabilities : option pyval
}.
Arguments mkClient {T} transport capabilities.
Arguments transport {T} _.
Arguments capabilities {T} _.

Section WithTransport.

Context {T : Type} {transport_ops : Transport T}.

(** [StandardProtocolClient.__init__]. *)
Definition init (transport : T) : StandardProtocolClient T :=
  mkClient transport None.

Definition with_transport (t : T) (self : StandardProtocolClient T) :=
  mkClient t (capabilities self).

(** *** initialize *)

Definition initialize_params : pyval :=
  VDict [ ("clientInfo", VDict [("name", VStr "mcp-cli"); ("version", VStr "1.0.0")]);
          ("capabilities", VDict [("tools", VBool true); ("prompts", VBool true);
                                  ("resources", VBool true)]) ].

(** The two [except] clauses of [initialize]: a [TransportError] and any
    other [Exception] that is not a protocol error become an
    [InitializationError]; a protocol error is raised again;
    [CancelledError] is not caught. *)
Definition initialize_except (e : client_exn) : client_exn :=
  match e with
  | Other_exn (Transport_exn e) =>
      Protocol_exn
        (InitializationError (TransportText (TransportBase.message e)) (Cause (cause e)))
  | Other_exn (Builtin_exn e) => Protocol_exn (InitializationError (UnexpectedText e) (Data VNone))
  | Other_exn CancelledError => Other_exn CancelledError
  | Protocol_exn e => Protocol_exn e
  end.

(** What [initialize] does with the answer of the transport. *)
Definition initialize_response (r : result exn pyval) : result client_exn pyval :=
  response <- from_transport r ;;
  has_result <- from_python (contains "result" response) ;;
  if has_result : bool then from_python (subscript response "result")
  else
    has_error <- from_python (contains "error" response) ;;
    if has_error : bool then
      error <- from_python (subscript response "error") ;;
      message <- from_python (get error "message" (VStr "Unknown initialization error")) ;;
      data <- from_python (get error "data" VNone) ;;
      Raise (Protocol_exn (InitializationError (FromServer message) (Data data)))
    else
      Raise (Protocol_exn
               (InitializationError (Text "Invalid response from server") (Data VNone))).

(** [StandardProtocolClient.initialize]. *)
Definition initialize (self : StandardProtocolClient T)
  : StandardProtocolClient T * result client_exn pyval :=
  let '(t, connected) := connect (transport self) in
  match connected with
  | Raise e => (with_transport t self, Raise (initialize_except (Other_exn e)))
  | Ok false =>
      (with_transport t self,
       Raise (Protocol_exn
                (InitializationError (Text "Failed to connect to server") (Data VNone))))
  | Ok true =>
      let '(t, r) := send_message (VStr MessageMethod.INITIALIZE) initialize_params t in
      match initialize_response r with
      | Ok capabilities => (mkClient t (Some capabilities), Ok capabilities)
      | Raise e => (with_transport t self, Raise (initialize_except e))
      end
  end.

(** *** call_tool *)

(** What the [try] of [call_tool] does with the answer of the transport. *)
Definition call_tool_response (tool_name : string) (r : result exn pyval)
  : result client_exn pyval :=
  response <- from_transport r ;;
  has_result <- from_python (contains "result" response) ;;
  if has_result : bool then from_python (subscript response "result")
  else
    has_error <- from_python (contains "error" response) ;;
    if has_error : bool then
      error <- from_python (subscript response "error") ;;
      code <- from_python (get error "code" (VInt 0)) ;;
      if eq_int code 1100 then
        data <- from_python (get error "data" VNone) ;;
        Raise (Protocol_exn (InvalidToolError tool_name (Data data)))
      else
        message <- from_python (get error "message" (VStr "Unknown error")) ;;
        data <- from_python (get error "data" VNone) ;;
        Raise (Protocol_exn (ToolExecutionError tool_name (FromServer message) (Data data)))
    else
      Raise (Protocol_exn
               (ToolExecutionError tool_name (Text "Invalid response from server")
                  (Data VNone))).

(** The clause [except TransportError as e] of [call_tool]. *)
Definition call_tool_except {A} (tool_name : string) (r : result client_exn A)
  : result client_exn A :=
  match r with
  | Raise (Other_exn (Transport_exn e)) =>
      Raise (Protocol_exn
               (ToolExecutionError tool_name (TransportText (TransportBase.message e))
                  (Cause (cause e))))
  | r => r
  end.

(** The request [call_tool] sends. *)
Definition call_tool_params (tool_name : string) (params : pyval) : pyval :=
  VDict [("name", VStr tool_name); ("parameters", params)].

(** [StandardProtocolClient.call_tool]. *)
Definition call_tool (tool_name : string) (params : pyval) (self : StandardProtocolClient T)
  : StandardProtocolClient T * result client_exn pyval :=
  let '(t, r) :=
    send_message (VStr MessageMethod.TOOLS_CALL) (call_tool_params tool_name params)
      (transport self) in
  (with_transport t self, call_tool_except tool_name (call_tool_response tool_name r)).

(** *** get_prompt and get_resource *)

(** [request_params = {"name": name}], with ["parameters"] added when
    [params] is true. *)
Definition get_params (name : string) (params : pyval) : pyval :=
  let request_params := [("name", VStr name)] in
  VDict (if truthy params then dict_set request_params "parameters" params
         else request_params).

(** What the [try] of [get_prompt] and of [get_resource] does with the answer
    of the transport; the two bodies are the same text. *)
Definition get_response (r : result exn pyval) : result client_exn pyval :=
  response <- from_transport r ;;
  has_result <- from_python (contains "result" response) ;;
  if has_result : bool then from_python (subscript response "result")
  else
    has_error <- from_python (contains "error" response) ;;
    if has_error : bool then
      error <- from_python (subscript response "error") ;;
      message <- from_python (get error "message" (VStr "Unknown error")) ;;
      code <- from_python (get error "code" (VInt 0)) ;;
      data <- from_python (get error "data" VNone) ;;
      Raise (Protocol_exn (MCPProtocolError_new (FromServer message) code (Data data)))
    else
      Raise (Protocol_exn
               (MCPProtocolError_new (Text "Invalid response from server") (VInt 0)
                  (Data VNone))).

(** The clause [except TransportError as e] of both. *)
Definition get_except {A} (r : result client_exn A) : result client_exn A :=
  match r with
  | Raise (Other_exn (Transport_exn e)) =>
      Raise (Protocol_exn
               (MCPProtocolError_new (TransportText (TransportBase.message e)) (VInt 0)
                  (Cause (cause e))))
  | r => r
  end.

(** [StandardProtocolClient.get_prompt]; [params] defaults to [None]. *)
Definition get_prompt (prompt_name : string) (params : pyval) (self : StandardProtocolClient T)
  : StandardProtocolClient T * result client_exn pyval :=
  let '(t, r) :=
    send_message (VStr MessageMethod.PROMPTS_GET) (get_params prompt_name params)
      (transport self) in
  (with_transport t self, get_except (get_response r)).

(** [StandardProtocolClient.get_resource]; [params] defaults to [None]. *)
Definition get_resource (resource_name : string) (params : pyval)
  (self : StandardProtocolClient T)
  : StandardProtocolClient T * result client_exn pyval :=
  let '(t, r) :=
    send_message (VStr MessageMethod.RESOURCES_GET) (get_params resource_name params)
      (transport self) in
  (with_transport t self, get_except (get_response r)).

(** *** shutdown *)

(** [StandardProtocolClient.shutdown]: both calls sit in one [try], and
    [except Exception] answers [False]. *)
Definition shutdown (self : StandardProtocolClient T)
  : StandardProtocolClient T * result client_exn bool :=
  let '(t, sent) := send_message (VStr MessageMethod.SHUTDOWN) (VDict []) (transport self) in
  match sent with
  | Ok _ =>
      let '(t, disconnected) := disconnect t in
      match disconnected with
      | Ok _ => (with_transport t self, Ok true)
      | Raise e => (with_transport t self, except_Exception false e)
      end
  | Raise e => (with_transport t self, except_Exception false e)
  end.

End WithTransport.

(** [StdioTransport] as a [Transport], given Python's JSON codec and what
    the event loop answers to [connect]. *)
Definition stdio (dumps : pydict -> result py_exception unit)
  (loads : string -> Stdio.decoded) (env : Stdio.pipes)
  : Transport Stdio.StdioTransport :=
  {| connect self :=
       let '(self, ok) := Stdio.connect env self in (self, Ok ok);
     disconnect self :=
       let '(self, ok) := Stdio.disconnect self in (self, Ok ok);
     send_message method params self := Stdio.send_message dumps loads method params self |}.

End Client.

(* ================================================================= *)
(** ** protocol_validator.py: tool results *)

Module ToolResults.

Definition isinstance_list (v : pyval) : bool :=
  match v with VList _ => true | _ => false end.

(** The [for entry in result["entries"]] loop of the [listDirectory]
    branch. *)
Fixpoint check_entries (entries : list pyval) : option string :=
  match entries with
  | [] => None
  | entry :: entries =>
      match entry with
      | VDict entry =>
          if negb (dict_contains "name" entry)
          then Some "Invalid result for listDirectory: each entry must have a 'name'"
          else
            match dict_get entry "type" with
            | None => Some "Invalid result for listDirectory: each entry must have a 'type'"
            | Some type =>
                if negb (eq_str type "file" || eq_str type "directory")
                then Some "Invalid result for listDirectory: 'type' must be 'file' or 'directory'"
                else check_entries entries
            end
      | _ => Some "Invalid result for listDirectory: each entry must be an object"
      end
  end.

(** [ProtocolValidator.validate_tool_result]. *)
Definition validate_tool_result (tool_name : string) (result : pydict) : option string :=
  if String.eqb tool_name "readFile" then
    if negb (dict_contains "content" result)
    then Some "Invalid result for readFile: missing required field 'content'"
    else None
  else if String.eqb tool_name "writeFile" then
    match dict_get result "success" with
    | None => Some "Invalid result for writeFile: missing required field 'success'"
    | Some success =>
        if negb (isinstance_bool success)
        then Some "Invalid result for writeFile: 'success' must be a boolean"
        else None
    end
  else if String.eqb tool_name "listDirectory" then
    match dict_get result "entries" with
    | None => Some "Invalid result for listDirectory: missing required field 'entries'"
    | Some (VList entries) => check_entries entries
    | Some _ => Some "Invalid result for listDirectory: 'entries' must be an array"
    end
  else if String.eqb tool_name "query" then
    match dict_get result "rows" with
    | None => Some "Invalid result for query: missing required field 'rows'"
    | Some rows =>
        if negb (isinstance_list rows)
        then Some "Invalid result for query: 'rows' must be an array"
        else None
    end
  else if String.eqb tool_name "getTables" then
    if negb (dict_contains "tables" result)
    then Some "Invalid result for getTables: missing required field 'tables'"
    else None
  else None.

End ToolResults.

(* ================================================================= *)
(** ** json_rpc_message.py: responses, errors, validate_message *)

Module Codec.
Import ProtocolValidator JsonRpcMessage.

(** The envelope [create_response] builds, before it validates it; [partial]
    is any object, taken by its truth value. *)
Definition response_envelope (result request_id partial : pyval) : pydict :=
  let response := [("jsonrpc", VStr "2.0"); ("result", result); ("id", request_id)] in
  if truthy partial then dict_set response "partial" (VBool true) else response.

(** [create_response(result, request_id, partial=False)]. *)
Definition create_response (result request_id partial : pyval)
  : Py.result py_exception pydict :=
  let response := response_envelope result request_id partial in
  let error := validate_response response in
  if error_is_truthy error then
    match error with
    | Some msg => Raise (ValueError (String.append "Invalid response: " msg))
    | None => Raise (ValueError "Invalid response: None")
    end
  else Ok response.

(** The envelope [create_error] builds: [data] joins the error object when
    it is not [None]. *)
Definition error_envelope (code message request_id data : pyval) : pydict :=
  let error := [("code", code); ("message", message)] in
  let error := if is_none data then error else dict_set error "data" data in
  [("jsonrpc", VStr "2.0"); ("error", VDict error); ("id", request_id)].

(** [create_error(code, message, request_id, data=None)]. *)
Definition create_error (code message request_id data : pyval)
  : Py.result py_exception pydict :=
  let error_response := error_envelope code message request_id data in
  let error := validate_response error_response in
  if error_is_truthy error then
    match error with
    | Some msg => Raise (ValueError (String.append "Invalid error response: " msg))
    | None => Raise (ValueError "Invalid error response: None")
    end
  else Ok error_response.

(** [validate_message(message)]. *)
Definition validate_message (message : pydict) : option string :=
  if dict_contains "method" message then validate_request message
  else validate_response message.

End Codec.

(* ================================================================= *)
(** ** error_codes.py: get_message *)

Module ErrorMessages.
Import ErrorCodes.

Definition FS_FILE_NOT_FOUND : Z := 2000.
Definition FS_PERMISSION_DENIED : Z := 2001.
Definition FS_IO_ERROR : Z := 2002.
Definition FS_INVALID_PATH : Z := 2003.
Definition DB_CONNECTION_ERROR : Z := 3000.
Definition DB_QUERY_ERROR : Z := 3001.
Definition DB_TABLE_NOT_FOUND : Z := 3002.

(** The dict [messages] of [get_message], in the order it is written. *)
Definition messages : list (Z * string) :=
  [ (PARSE_ERROR, "Parse error");
    (INVALID_REQUEST, "Invalid request");
    (METHOD_NOT_FOUND, "Method not found");
    (INVALID_PARAMS, "Invalid parameters");
    (INTERNAL_ERROR, "Internal error");
    (INITIALIZATION_FAILED, "Initialization failed");
    (INVALID_TOOL, "Invalid tool");
    (TOOL_EXECUTION_FAILED, "Tool execution failed");
    (INVALID_PROMPT, "Invalid prompt");
    (PROMPT_NOT_FOUND, "Prompt not found");
    (INVALID_RESOURCE, "Invalid resource");
    (RESOURCE_NOT_FOUND, "Resource not found");
    (FS_FILE_NOT_FOUND, "File not found");
    (FS_PERMISSION_DENIED, "Permission denied");
    (FS_IO_ERROR, "I/O error");
    (FS_INVALID_PATH, "Invalid path");
    (DB_CONNECTION_ERROR, "Database connection error");
    (DB_QUERY_ERROR, "Database query error");
    (DB_TABLE_NOT_FOUND, "Table not found") ].

(** [d.get(code)] on a dict with integer keys. *)
Fixpoint lookup (table : list (Z * string)) (code : Z) : option string :=
  match table with
  | [] => None
  | (k, msg) :: table => if code =? k then Some msg else lookup table code
  end.

(** [ErrorCodes.get_message(code)]. *)
Definition get_message (code : Z) : string :=
  match lookup messages code with
  | Some msg => msg
  | None => "Unknown error"
  end.

End ErrorMessages.

Module ClientMore.
Import Exceptions Client.

(** The method names of [MessageMethod] these calls send. *)
Definition PING : string := "ping".
Definition TOOLS_LIST : string := "tools/list".
Definition PROMPTS_LIST : string := "prompts/list".
Definition RESOURCES_LIST : string := "resources/list".

(** What one resumption of a transport's stream gives. *)
Inductive stream_step : Type :=
| Yielded (response : pyval)
| Stopped
| Raised_exn (e : exn).

(** The streaming side of [class Transport(ABC)]: [send_streaming_message]
    creates the generator, [resume] is one [__anext__] on it. *)
Class StreamingTransport (T G : Type) : Type := {
  send_streaming_message : pyval -> pyval -> G;
  resume : G -> T -> T * G * stream_step
}.

(** [StdioTransport] as a streaming transport. *)
Definition stdio_streaming (dumps : pydict -> result py_exception unit)
  (loads : string -> Stdio.decoded)
  : StreamingTransport Stdio.StdioTransport Stdio.generator :=
  {| send_streaming_message method params := Stdio.Created method params;
     resume g self :=
       let '(self, g, r) := Stdio.anext dumps loads g self in
       (self, g,
        match r with
        | Stdio.Yield response => Yielded response
        | Stdio.StopAsyncIteration => Stopped
        | Stdio.Raised e => Raised_exn e
        end) |}.

Notation "x <- r ;; k" := (bind r (fun x => k))
  (at level 100, r at next level, right associativity).

Section WithTransport.

Context {T : Type} {transport_ops : Transport T}.

(** [StandardProtocolClient.ping]: [except Exception] answers [False]. *)
Definition ping (self : StandardProtocolClient T)
  : StandardProtocolClient T * result client_exn bool :=
  let '(t, r) := send_message (VStr PING) (VDict []) (transport self) in
  (with_transport t self,
   match r with
   | Ok response =>
       match contains "result" response with
       | Ok has_result => Ok has_result
       | Raise _ => Ok false
       end
   | Raise e => except_Exception false e
   end).

(** What the [try] of [get_tools], [get_prompts] and [get_resources] does
    with the answer of the transport; the three bodies differ in the name of
    the field only. *)
Definition list_response (field : string) (r : result exn pyval) : result client_exn pyval :=
  response <- from_transport r ;;
  has_result <- from_python (contains "result" response) ;;
  if has_result : bool then
    result <- from_python (subscript response "result") ;;
    from_python (get result field (VList []))
  else
    has_error <- from_python (contains "error" response) ;;
    if has_error : bool then
      error <- from_python (subscript response "error") ;;
      message <- from_python (get error "message" (VStr "Unknown error")) ;;
      code <- from_python (get error "code" (VInt 0)) ;;
      data <- from_python (get error "data" VNone) ;;
      Raise (Protocol_exn (MCPProtocolError_new (FromServer message) code (Data data)))
    else Ok (VList []).

(** [StandardProtocolClient.get_tools]. *)
Definition get_tools (self : StandardProtocolClient T)
  : StandardProtocolClient T * result client_exn pyval :=
  let '(t, r) := send_message (VStr TOOLS_LIST) (VDict []) (transport self) in
  (with_transport t self, get_except (list_response "tools" r)).

(** [StandardProtocolClient.get_prompts]. *)
Definition get_prompts (self : StandardProtocolClient T)
  : StandardProtocolClient T * result client_exn pyval :=
  let '(t, r) := send_message (VStr PROMPTS_LIST) (VDict []) (transport self) in
  (with_transport t self, get_except (list_response "prompts" r)).

(** [StandardProtocolClient.get_resources]. *)
Definition get_resources (self : StandardProtocolClient T)
  : StandardProtocolClient T * result client_exn pyval :=
  let '(t, r) := send_message (VStr RESOURCES_LIST) (VDict []) (transport self) in
  (with_transport t self, get_except (list_response "resources" r)).

End WithTransport.

Section WithStream.

Context {T G : Type} {stream_ops : StreamingTransport T G}.

(** The body of the [async for] of [call_streaming_tool] for one response:
    [Ok (Some result)] is the [yield], [Ok None] a response with neither
    [result] nor [error], for which the loop just goes on. *)
Definition streaming_response (tool_name : string) (response : pyval)
  : result client_exn (option pyval) :=
  has_result <- from_python (contains "result" response) ;;
  if has_result : bool then
    result <- from_python (subscript response "result") ;;
    Ok (Some result)
  else
    has_error <- from_python (contains "error" response) ;;
    if has_error : bool then
      error <- from_python (subscript response "error") ;;
      code <- from_python (get error "code" (VInt 0)) ;;
      if eq_int code 1100 then
        data <- from_python (get error "data" VNone) ;;
        Raise (Protocol_exn (InvalidToolError tool_name (Data data)))
      else
        message <- from_python (get error "message" (VStr "Unknown error")) ;;
        data <- from_python (get error "data" VNone) ;;
        Raise (Protocol_exn (ToolExecutionError tool_name (FromServer message) (Data data)))
    else Ok None.

(** How the iteration over [call_streaming_tool] ends. *)
Inductive stream_end : Type :=
| Exhausted
| Aborted (e : client_exn).

(** The clause [except TransportError as e] of [call_streaming_tool], on
    what the stream of the transport has raised. *)
Definition streaming_except (tool_name : string) (e : exn) : client_exn :=
  match e with
  | Transport_exn e =>
      Protocol_exn
        (ToolExecutionError tool_name (TransportText (TransportBase.message e))
           (Cause (cause e)))
  | Builtin_exn _ | CancelledError => Other_exn e
  end.

(** The consumer iterates over the generator [call_streaming_tool] returns,
    which iterates over the generator [g] of the transport; [n] bounds the
    resumptions of [g], [None] says that the bound was reached first. *)
Fixpoint streaming_results (n : nat) (tool_name : string) (g : G) (t : T)
  : T * list pyval * option stream_end :=
  match n with
  | O => (t, [], None)
  | S n =>
      match resume g t with
      | (t, g, Yielded response) =>
          match streaming_response tool_name response with
          | Ok (Some result) =>
              let '(t, results, c) := streaming_results n tool_name g t in
              (t, result :: results, c)
          | Ok None => streaming_results n tool_name g t
          | Raise e => (t, [], Some (Aborted e))
          end
      | (t, _, Stopped) => (t, [], Some Exhausted)
      | (t, _, Raised_exn e) => (t, [], Some (Aborted (streaming_except tool_name e)))
      end
  end.

(** [StandardProtocolClient.call_streaming_tool], iterated by a consumer. *)
Definition call_streaming_tool (n : nat) (tool_name : string) (params : pyval) (t : T)
  : T * list pyval * option stream_end :=
  streaming_results n tool_name
    (send_streaming_message (VStr MessageMethod.TOOLS_CALL)
       (call_tool_params tool_name params)) t.

End WithStream.

End ClientMore.

(* ================================================================= *)
(** ** core/di.py *)

Module Di.

Section WithObjects.

(** The objects the container holds, the factories, and what calling a
    factory for the n-th time returns: a factory here returns an object and
    does not itself use the container. *)
Variable Any : Type.
Variable Factory : Type.
Variable call : Factory -> nat -> Any.

(** A dict with str keys: [d.get(k)], [d[k] = v]. *)
Fixpoint lookup {V} (d : list (string * V)) (k : string) : option V :=
  match d with
  | [] => None
  | (k', v) :: d' => if String.eqb k k' then Some v else lookup d' k
  end.

Fixpoint store {V} (d : list (string * V)) (k : string) (v : V) : list (string * V) :=
  match d with
  | [] => [(k, v)]
  | (k', v') :: d' =>
      if String.eqb k k' then (k', v) :: d' else (k', v') :: store d' k v
  end.

(** [class Container]: its two class attributes.  [calls] is not a Python
    attribute: it counts the factory calls made so far. *)
Record Container : Type := mkContainer {
  _instances : list (string * Any);
  _factories : list (string * Factory);
  calls : nat
}.

(** [Container.register(interface, implementation, factory)]: a factory, when
    given, is stored and the implementation is ignored. *)
Definition register (interface : string) (implementation : Any)
  (factory : option Factory) (cls : Container) : Container :=
  match factory with
  | Some factory =>
      mkContainer (_instances cls) (store (_factories cls) interface factory) (calls cls)
  | None =>
      mkContainer (store (_instances cls) interface implementation) (_factories cls)
        (calls cls)
  end.

(** [Container.resolve(interface)]. *)
Definition resolve (interface : string) (cls : Container)
  : Container * result py_exception Any :=
  match lookup (_factories cls) interface with
  | Some factory =>
      match lookup (_instances cls) interface with
      | Some instance => (cls, Ok instance)
      | None =>
          let instance := call factory (calls cls) in
          (mkContainer (store (_instances cls) interface instance) (_factories cls)
             (S (calls cls)),
           Ok instance)
      end
  | None =>
      match lookup (_instances cls) interface with
      | Some instance => (cls, Ok instance)
      | None => (cls, Raise (KeyError interface))
      end
  end.

(** [Container.clear()]. *)
Definition clear (cls : Container) : Container :=
  mkContainer [] [] (calls cls).

End WithObjects.

Arguments Container : clear implicits.
Arguments mkContainer {Any Factory} _ _ _.
Arguments _instances {Any Factory} _.
Arguments _factories {Any Factory} _.
Arguments calls {Any Factory} _.
Arguments register {Any Factory} interface implementation factory cls.
Arguments resolve {Any Factory} call interface cls.
Arguments clear {Any Factory} cls.

End Di.

(* ================================================================= *)
(** ** core/config.py *)

Module Config.

(** The configuration file as the service finds it. *)
Inductive file : Type :=
| Missing                       (* open() raises FileNotFoundError *)
| Garbage                       (* json.load raises JSONDecodeError *)
| Unreadable (e : py_exception) (* open() or json.load raises another exception *)
| Json (content : pyval).

(** The file at [config_file], and what opening it with ['w'] and dumping a
    value to it does.  Without [dump], [open()] raises and the file is
    untouched.  Otherwise the file is truncated, and [json.dump] of the value
    leaves a file in its place and goes through ([true]) or raises on the way
    ([false]): that depends on the value as well as on the disk, and the file
    left need not decode to the value that was dumped. *)
Record disk : Type := mkDisk {
  stored : file;
  dump : option (pyval -> file * bool)
}.

(** [class ConfigService]: its [config] attribute. *)
Record ConfigService : Type := mkConfigService {
  config : pyval
}.

(** [del d[k]] on a dict with str keys. *)
Fixpoint dict_del (d : pydict) (k : string) : pydict :=
  match d with
  | [] => []
  | (k', v) :: d' => if String.eqb k k' then dict_del d' k else (k', v) :: dict_del d' k
  end.

(** [v[k] = x] for a str key: an assignment on a dict, [TypeError] on every
    other object. *)
Definition setitem (v : pyval) (k : string) (x : pyval) : result py_exception pyval :=
  match v with
  | VDict d => Ok (VDict (dict_set d k x))
  | _ => Raise TypeError
  end.

(** [del v[k]] for a str key. *)
Definition delitem (v : pyval) (k : string) : result py_exception pyval :=
  match v with
  | VDict d =>
      match dict_get d k with
      | Some _ => Ok (VDict (dict_del d k))
      | None => Raise (KeyError k)
      end
  | _ => Raise TypeError
  end.

(** [ConfigService._load_config]: only [FileNotFoundError] and
    [JSONDecodeError] give the default configuration. *)
Definition _load_config (world : disk) : result py_exception pyval :=
  match stored world with
  | Json content => Ok content
  | Missing | Garbage => Ok (VDict [("mcpServers", VDict [])])
  | Unreadable e => Raise e
  end.

(** [ConfigService.__init__]. *)
Definition init (world : disk) : result py_exception ConfigService :=
  bind (_load_config world) (fun config => Ok (mkConfigService config)).

(** [ConfigService.save_config]: [except Exception] answers [False]. *)
Definition save_config (self : ConfigService) (world : disk) : disk * bool :=
  match dump world with
  | Some json_dump =>
      let '(content, ok) := json_dump (config self) in
      (mkDisk content (dump world), ok)
  | None => (world, false)
  end.

(** [self.config.get("mcpServers", {})]. *)
Definition servers (self : ConfigService) : result py_exception pyval :=
  get (config self) "mcpServers" (VDict []).

(** [ConfigService.get_server_config]. *)
Definition get_server_config (server_name : string) (self : ConfigService)
  : result py_exception pyval :=
  bind (servers self) (fun all => get all server_name VNone).

(** [ConfigService.get_all_servers]. *)
Definition get_all_servers (self : ConfigService) : result py_exception pyval :=
  servers self.

(** What a mutating method gives: the service and the disk afterwards, and
    the boolean it returns or the exception it raises. *)
Definition outcome : Type := ConfigService * disk * result py_exception bool.

(** [self.config["mcpServers"][name] = config], on the nested dict. *)
Definition set_server (cfg : pyval) (name : string) (server : pyval)
  : result py_exception pyval :=
  bind (subscript cfg "mcpServers") (fun all =>
  bind (setitem all name server) (fun all =>
  setitem cfg "mcpServers" all)).

(** [ConfigService.add_server]. *)
Definition add_server (name : string) (server : pyval) (self : ConfigService)
  (world : disk) : outcome :=
  match contains "mcpServers" (config self) with
  | Raise e => (self, world, Raise e)
  | Ok present =>
      match (if present then Ok (config self)
             else setitem (config self) "mcpServers" (VDict [])) with
      | Raise e => (self, world, Raise e)
      | Ok cfg =>
          match set_server cfg name server with
          | Raise e => (mkConfigService cfg, world, Raise e)
          | Ok cfg =>
              let self := mkConfigService cfg in
              let '(world, saved) := save_config self world in
              (self, world, Ok saved)
          end
      end
  end.

(** [name in self.config.get("mcpServers", {})]. *)
Definition has_server (name : string) (self : ConfigService) : result py_exception bool :=
  bind (servers self) (fun all => contains name all).

(** [ConfigService.remove_server]. *)
Definition remove_server (name : string) (self : ConfigService) (world : disk) : outcome :=
  match has_server name self with
  | Raise e => (self, world, Raise e)
  | Ok false => (self, world, Ok false)
  | Ok true =>
      match bind (subscript (config self) "mcpServers") (fun all =>
            bind (delitem all name) (fun all =>
            setitem (config self) "mcpServers" all)) with
      | Raise e => (self, world, Raise e)
      | Ok cfg =>
          let self := mkConfigService cfg in
          let '(world, saved) := save_config self world in
          (self, world, Ok saved)
      end
  end.

(** [ConfigService.update_server]. *)
Definition update_server (name : string) (server : pyval) (self : ConfigService)
  (world : disk) : outcome :=
  match has_server name self with
  | Raise e => (self, world, Raise e)
  | Ok false => (self, world, Ok false)
  | Ok true =>
      match set_server (config self) name server with
      | Raise e => (self, world, Raise e)
      | Ok cfg =>
          let self := mkConfigService cfg in
          let '(world, saved) := save_config self world in
          (self, world, Ok saved)
      end
  end.

End Config.


(* ================================================================= *)
(** * Vocabulary of the properties *)

Module Rules.
Import ProtocolValidator.

(** The rules of [validate_request] in the order the specification lists
    them, each with the message it answers; the rule on the id is the one the
    source tests, [isinstance(request["id"], (str, int))]. *)
Definition request_rules (request : pydict) : list (bool * string) :=
  [ (dict_contains "jsonrpc" request, "Missing required field: 'jsonrpc'");
    (match dict_get request "jsonrpc" with Some v => eq_str v "2.0" | None => false end,
     "Invalid 'jsonrpc' value: must be '2.0'");
    (dict_contains "method" request, "Missing required field: 'method'");
    (match dict_get request "method" with Some v => isinstance_str v | None => false end,
     "Invalid 'method' type: must be a string");
    (dict_contains "params" request, "Missing required field: 'params'");
    (match dict_get request "params" with Some v => isinstance_dict v | None => false end,
     "Invalid 'params' type: must be an object");
    (dict_contains "id" request, "Missing required field: 'id'");
    (match dict_get request "id" with
     | Some v => isinstance_str v || isinstance_int v
     | None => false
     end,
     "Invalid 'id' type: must be a string or number") ].

(** The message of the first rule that does not hold. *)
Fixpoint first_violation (rules : list (bool * string)) : option string :=
  match rules with
  | [] => None
  | (true, _) :: rules => first_violation rules
  | (false, msg) :: _ => Some msg
  end.

(** An id as the annotation [Union[str, int]] has it. *)
Definition id_value (id : string + Z) : pyval :=
  match id with
  | inl s => VStr s
  | inr n => VInt n
  end.

(** The request of the repository's test
    [test_validate_invalid_requests] whose id is [True]. *)
Definition request_with_bool_id : pydict :=
  [ ("jsonrpc", VStr "2.0"); ("method", VStr "ping"); ("params", VDict []);
    ("id", VBool true) ].

(** A well-formed result response. *)
Definition result_response : pydict :=
  [ ("jsonrpc", VStr "2.0"); ("result", VDict [("status", VStr "success")]);
    ("id", VInt 1) ].

End Rules.

Module Streams.
Import Stdio.

(** The envelope a line carries: the line is not empty and decodes to a
    mapping. *)
Definition envelope_of (loads : string -> decoded) (line : string) : option pydict :=
  if is_empty line then None
  else match loads line with
       | Decoded (VDict d) => Some d
       | _ => None
       end.

(** The envelope has an id, and it equals the outstanding request id. *)
Definition answers (request_id : Z) (d : pydict) : bool :=
  match dict_get d "id" with
  | Some id => eq_int id request_id
  | None => false
  end.

(** The envelope has a [partial] member that is true. *)
Definition is_partial (d : pydict) : bool :=
  match dict_get d "partial" with
  | Some partial => truthy partial
  | None => false
  end.


(** A line that carries a partial envelope of the outstanding exchange. *)
Definition partial_chunk (loads : string -> decoded) (request_id : Z) (line : string) : bool :=
  match envelope_of loads line with
  | Some d => answers request_id d && is_partial d
  | None => false
  end.

(** A line that carries a terminal envelope of the outstanding exchange. *)
Definition terminal (loads : string -> decoded) (request_id : Z) (line : string) : bool :=
  match envelope_of loads line with
  | Some d => answers request_id d && negb (is_partial d)
  | None => false
  end.



(** A reader that is going to receive the lines, and then the end of the
    stream or nothing more. *)
Definition feed (lines : list string) (e : ending) : StreamReader :=
  mkStreamReader (map Line lines) e.

(** What the consumer gets from one resumption and from the resumptions that
    follow it. *)
Definition continue_with (dumps : pydict -> result py_exception unit)
  (loads : string -> decoded) (n : nat) (step : StdioTransport * generator * resumption)
  : StdioTransport * list pyval * option completion :=
  match step with
  | (self, g, Yield response) =>
      let '(self, responses, c) := async_for dumps loads n g self in
      (self, response :: responses, c)
  | (self, _, StopAsyncIteration) => (self, [], Some Completed)
  | (self, _, Raised e) => (self, [], Some (Failed e))
  end.

(** The ids of the envelopes on the wire. *)
Definition wire_ids (self : StdioTransport) : list pyval :=
  map (fun request => dict_get_default request "id" VNone) (wire self).

(** Both ends of the transport are set. *)
Definition connected (self : StdioTransport) : bool :=
  match writer self, reader self with
  | Some _, Some _ => true
  | _, _ => false
  end.

(** The body of the generator has started. *)
Definition started (g : generator) : bool :=
  match g with
  | Created _ _ => false
  | Suspended _ _ | Finished => true
  end.

(** The transport once the request has been handed to its pipe. *)
Definition hand_over (request : pydict) (self : StdioTransport) : StdioTransport :=
  match writer self with
  | Some (WritePipe Takes _) => with_wire (wire self ++ [request]) self
  | _ => self
  end.

(** What the two statements that send the request raise: the exception of
    [write()] when that raises, the [AttributeError] of [drain()]
    otherwise. *)
Definition write_error (self : StdioTransport) : py_exception :=
  match writer self with
  | Some (WritePipe (Fails e) _) => e
  | _ => AttributeError
  end.

(** The [TransportError] both methods raise at the drain. *)
Definition no_drain (wrap : py_exception -> transport_message) : exn :=
  Transport_exn (mkTransportError (wrap AttributeError) (Some AttributeError)).

(** The texts of the [TransportError]s of [send_streaming_message]. *)
Definition streaming_text (m : transport_message) : bool :=
  match m with
  | NotConnected | InvalidJSONStreaming _ | ErrorStreaming _ => true
  | ConnectionClosed | InvalidJSON _ | IdMismatch _ _ | ErrorSending _ => false
  end.

(** What is done to one transport instance, one call after the other.
    Calling [send_streaming_message] only creates the generator; each
    resumption of one of the generators created so far is a call of its
    own, so that exchanges may interleave. *)
Inductive call : Type :=
| Connect (env : pipes)
| Disconnect
| Send (method params : pyval)
| OpenStream (method params : pyval)
| Resume (i : nat).

Fixpoint replace_nth {A} (i : nat) (x : A) (l : list A) : list A :=
  match l, i with
  | [], _ => []
  | _ :: l, O => x :: l
  | y :: l, S i => y :: replace_nth i x l
  end.

(** The transport and the generators created on it. *)
Definition session : Type := StdioTransport * list generator.

Definition run_call (dumps : pydict -> result py_exception unit)
  (loads : string -> decoded) (c : call) (s : session) : session :=
  let '(self, generators) := s in
  match c with
  | Connect env => (fst (connect env self), generators)
  | Disconnect => (fst (disconnect self), generators)
  | Send method params => (fst (send_message dumps loads method params self), generators)
  | OpenStream method params => (self, generators ++ [Created method params])
  | Resume i =>
      match nth_error generators i with
      | Some g =>
          let '(self, g, _) := anext dumps loads g self in
          (self, replace_nth i g generators)
      | None => (self, generators)
      end
  end.

Definition run_calls (dumps : pydict -> result py_exception unit)
  (loads : string -> decoded) (calls : list call) (s : session) : session :=
  fold_left (fun s c => run_call dumps loads c s) calls s.

(** The ids on the wire are integers of 1, 2, 3, ... up to the counter, each
    larger than the ones before it. *)
Definition ids_in_sequence (self : StdioTransport) : Prop :=
  0 <= request_id self
  /\ exists ks : list Z,
      wire_ids self = map VInt ks
      /\ StronglySorted Z.lt ks
      /\ Forall (fun k => 1 <= k <= request_id self) ks.

(** What a call may do to the counter and to the wire: nothing, or it takes
    the next id and writes at most the one envelope that carries it. *)
Definition takes_next_id (self self' : StdioTransport) : Prop :=
  (request_id self' = request_id self /\ wire self' = wire self)
  \/ (request_id self' = request_id self + 1
      /\ (wire self' = wire self
          \/ exists method params,
               wire self' =
               wire self ++ [JsonRpcMessage.request_envelope method params
                               (VInt (request_id self + 1))])).

End Streams.

Module Replies.

(** What the transport has answered is an error envelope: a mapping without
    [result] whose [error] is a mapping. *)
Definition error_envelope (r : result exn pyval) (error : pydict) : Prop :=
  exists d, r = Ok (VDict d)
            /\ dict_get d "result" = None
            /\ dict_get d "error" = Some (VDict error).

(** What the transport has answered has no [result], has an [error], and the
    [code] of that error equals 1100. *)
Definition reports_invalid_tool (r : result exn pyval) : Prop :=
  exists response error code,
    r = Ok response
    /\ contains "result" response = Ok false
    /\ contains "error" response = Ok true
    /\ subscript response "error" = Ok error
    /\ get error "code" (VInt 0) = Ok code
    /\ eq_int code ErrorCodes.INVALID_TOOL = true.

(** The call has raised an instance of the class. *)
Definition raises_class {A} (r : result Client.client_exn A) (c : Exceptions.error_class)
  : Prop :=
  exists e, r = Raise (Client.Protocol_exn e) /\ Exceptions.class_of e = c.

End Replies.


Module Scenario.
Import Stdio Streams.

(** A decoder given by the table of the lines of a scenario: a line of the
    table decodes to the value beside it, any other line is not JSON. *)
Definition table_loads (table : list (string * pyval)) (line : string) : decoded :=
  match dict_get table line with
  | Some response => Decoded response
  | None => NotJSON
  end.

(** A serialiser that takes every request of the scenarios. *)
Definition dumps_any (request : pydict) : result py_exception unit := Ok tt.

(** What the event loop answers to [connect] in the scenarios: a reader that
    receives [incoming] and then the end of the stream, and a write pipe
    that takes what is written to it, on a running loop. *)
Definition both_pipes (incoming : list string) : pipes :=
  PipesOk (feed incoming Eof) (WritePipe Takes false).

(** A transport that owns a child process and has connected to it; the
    child will deliver [incoming] and then close its end. *)
Definition connected_to (incoming : list string) : StdioTransport :=
  fst (connect (both_pipes incoming) (init (Some (Running Exits false)))).


(** A streamed exchange with foreign traffic in between: the outstanding id
    is 1. *)
Definition stream_table : list (string * pyval) :=
  [ ("other-3", VDict [("jsonrpc", VStr "2.0"); ("result", VStr "stale"); ("id", VInt 3)]);
    ("chunk-1", VDict [("jsonrpc", VStr "2.0"); ("result", VStr "he"); ("id", VInt 1);
                       ("partial", VBool true)]);
    ("notify", VDict [("jsonrpc", VStr "2.0"); ("method", VStr "log"); ("params", VDict [])]);
    ("final-1", VDict [("jsonrpc", VStr "2.0"); ("result", VStr "llo"); ("id", VInt 1)]);
    ("extra", VDict [("jsonrpc", VStr "2.0"); ("result", VStr "next"); ("id", VInt 2)]) ].


Definition other_3 : pydict :=
  [("jsonrpc", VStr "2.0"); ("result", VStr "stale"); ("id", VInt 3)].

(** The answers of the server of the client scenarios. *)
Definition init_reply : pyval :=
  VDict [("jsonrpc", VStr "2.0");
         ("result", VDict [("tools", VList [VDict [("name", VStr "echo");
                                                   ("description", VStr "d")]])]);
         ("id", VInt 1)].

Definition call_reply : pyval :=
  VDict [("jsonrpc", VStr "2.0"); ("result", VDict [("output", VStr "done")]);
         ("id", VInt 2)].

Definition error_reply (code : Z) (message : string) : pyval :=
  VDict [("jsonrpc", VStr "2.0");
         ("error", VDict [("code", VInt code); ("message", VStr message)]);
         ("id", VInt 1)].

Definition chunk_reply (text : string) : pyval :=
  VDict [("jsonrpc", VStr "2.0"); ("result", VStr text); ("id", VInt 1);
         ("partial", VBool true)].

(** The lines of the client scenarios over the stdio transport. *)
Definition client_table : list (string * pyval) :=
  [ ("init-reply", init_reply); ("call-reply", call_reply) ].

(** The stdio transport of the client scenarios: the child process will
    deliver [incoming] once the pipes are there. *)
Definition scenario_ops (incoming : list string) : Transport StdioTransport :=
  Client.stdio dumps_any (table_loads client_table) (both_pipes incoming).

(** A client on a transport that is already connected to a child which will
    deliver [incoming]. *)
Definition client_on (incoming : list string) : Client.StandardProtocolClient StdioTransport :=
  Client.init (connected_to incoming).

(** A transport for the scenarios that are about the client alone.  The
    client takes any [Transport]; this one answers the calls from a script,
    one entry per call, keeps the requests it was sent, and streams the
    steps of [chunks]. *)
Record Scripted : Type := mkScripted {
  script : list (result exn pyval);
  chunks : list ClientMore.stream_step;
  requests : list (pyval * pyval)
}.

Definition scripted : Transport Scripted :=
  {| TransportBase.connect t := (t, Ok true);
     TransportBase.disconnect t := (t, Ok true);
     TransportBase.send_message method params t :=
       let sent := requests t ++ [(method, params)] in
       match script t with
       | answer :: later => (mkScripted later (chunks t) sent, answer)
       | [] =>
           (mkScripted [] (chunks t) sent,
            Raise (Transport_exn (mkTransportError ConnectionClosed None)))
       end |}.

Definition scripted_streaming : ClientMore.StreamingTransport Scripted unit :=
  {| ClientMore.send_streaming_message method params := tt;
     ClientMore.resume g t :=
       match chunks t with
       | step :: later => (mkScripted (script t) later (requests t), tt, step)
       | [] => (t, tt, ClientMore.Stopped)
       end |}.

(** A client on a scripted transport. *)
Definition served (script : list (result exn pyval))
  : Client.StandardProtocolClient Scripted :=
  Client.init (mkScripted script [] []).

(** The capabilities of the server of the scenarios: one tool, [echo]. *)
Definition echo_only : pyval :=
  VDict [("tools", VList [VDict [("name", VStr "echo"); ("description", VStr "d")]])].

End Scenario.

Module MoreRules.

(** An entry of a [listDirectory] result as the validator wants it: a
    mapping with a [name] and a [type] that is ["file"] or ["directory"]. *)
Definition entry_ok (entry : pyval) : bool :=
  match entry with
  | VDict entry =>
      dict_contains "name" entry
      && match dict_get entry "type" with
         | Some type => eq_str type "file" || eq_str type "directory"
         | None => false
         end
  | _ => false
  end.

(** The tool names [validate_tool_result] knows. *)
Definition known_tools : list string :=
  ["readFile"; "writeFile"; "listDirectory"; "query"; "getTables"].

(** An id that [validate_response] lets pass: a str, an int (or bool), or
    [None]. *)
Definition response_id_ok (id : pyval) : bool :=
  isinstance_str id || isinstance_int id || is_none id.

End MoreRules.

Module Acceptance.
Import MoreRules.

(** What [validate_response] wants of a response, as one test. *)
Definition response_ok (response : pydict) : bool :=
  match dict_get response "jsonrpc", dict_get response "id" with
  | Some jsonrpc, Some id =>
      eq_str jsonrpc "2.0"
      && response_id_ok id
      && xorb (dict_contains "result" response) (dict_contains "error" response)
      && match dict_get response "error" with
         | Some (VDict error) =>
             match dict_get error "code", dict_get error "message" with
             | Some code, Some message => isinstance_int code && isinstance_str message
             | _, _ => false
             end
         | Some _ => false
         | None => true
         end
      && match dict_get response "partial" with
         | Some partial => isinstance_bool partial
         | None => true
         end
  | _, _ => false
  end.

(** The code of the lines of a table. *)
Definition codes (table : list (Z * string)) : list Z := map fst table.

End Acceptance.


Module MoreStreams.
Import Stdio Streams.



(** Where [disconnect] leaves a child that was running. *)
Definition still_running (p : Popen) : bool :=
  match p with
  | Running Refuses _ | Running Lingers true => true
  | _ => false
  end.

End MoreStreams.

Module MoreReplies.
Import Exceptions Client ClientMore.

(** The [result] member of a response, when it is a mapping that has one. *)
Definition result_member (response : pyval) : option pyval :=
  match response with
  | VDict d => dict_get d "result"
  | _ => None
  end.

Definition has_result (response : pyval) : bool :=
  match result_member response with
  | Some _ => true
  | None => false
  end.

(** The [result] members of the responses, in order. *)
Definition results_of (responses : list pyval) : list pyval :=
  flat_map (fun response =>
              match result_member response with
              | Some result => [result]
              | None => []
              end) responses.


(** What [call_tool] and [call_streaming_tool] raise for the error object of
    an error envelope. *)
Definition tool_error (tool_name : string) (error : pydict) : MCPProtocolError :=
  if eq_int (dict_get_default error "code" (VInt 0)) ErrorCodes.INVALID_TOOL
  then InvalidToolError tool_name (Data (dict_get_default error "data" VNone))
  else ToolExecutionError tool_name
         (FromServer (dict_get_default error "message" (VStr "Unknown error")))
         (Data (dict_get_default error "data" VNone)).

(** What a consumer that resumes the stream of a transport [n] times has
    received, and how the stream ended if it did. *)
Fixpoint received {T G} {stream_ops : StreamingTransport T G} (n : nat) (g : G) (t : T)
  : T * list pyval * option (option exn) :=
  match n with
  | O => (t, [], None)
  | S n =>
      match resume g t with
      | (t, g, Yielded response) =>
          let '(t, responses, c) := received n g t in
          (t, response :: responses, c)
      | (t, _, Stopped) => (t, [], Some None)
      | (t, _, Raised_exn e) => (t, [], Some (Some e))
      end
  end.

(** The message [initialize] gives an [InitializationError] it builds from
    an error envelope. *)
Definition server_message (error : pydict) : error_message :=
  FromServer (dict_get_default error "message" (VStr "Unknown initialization error")).

End MoreReplies.

Module ConfigShape.

(** A configuration as the service writes it: a mapping whose [mcpServers],
    when present, is a mapping. *)
Definition well_formed (cfg : pyval) : bool :=
  match cfg with
  | VDict d =>
      match dict_get d "mcpServers" with
      | None | Some (VDict _) => true
      | Some _ => false
      end
  | _ => false
  end.

(** The servers of a configuration that is a mapping. *)
Definition servers_of (d : pydict) : pydict :=
  match dict_get d "mcpServers" with
  | Some (VDict all) => all
  | _ => []
  end.

(** The configuration with other servers. *)
Definition with_servers (d all : pydict) : pyval :=
  VDict (dict_set d "mcpServers" (VDict all)).

(** What a method gives that stores [cfg] and then saves. *)
Definition saved (cfg : pyval) (world : Config.disk) : Config.outcome :=
  let self := Config.mkConfigService cfg in
  let '(world, ok) := Config.save_config self world in
  (self, world, Ok ok).

(** Whether the dump of the configuration to the file goes through. *)
Definition saves (cfg : pyval) (world : Config.disk) : bool :=
  match Config.dump world with
  | Some json_dump => snd (json_dump cfg)
  | None => false
  end.

(** The service on the default configuration, which [__init__] builds when
    there is no file. *)
Definition fresh : Config.ConfigService :=
  Config.mkConfigService (VDict [("mcpServers", VDict [])]).

(** The service with one server, [sqlite]. *)
Definition with_sqlite : Config.ConfigService :=
  Config.mkConfigService
    (VDict [("mcpServers", VDict [("sqlite", VDict [("command", VStr "uvx")])])]).

(** A directory in which the file cannot be created, and a disk that takes
    every dump. *)
Definition read_only : Config.disk := Config.mkDisk Config.Missing None.

Definition healthy : Config.disk :=
  Config.mkDisk Config.Missing (Some (fun cfg => (Config.Json cfg, true))).

End ConfigShape.

(* ================================================================= *)
(** * Properties *)

(** ** The validator and the message codec *)

Module ValidatorFacts.
Import ProtocolValidator JsonRpcMessage Rules.

Lemma validate_request_first_violation (request : pydict) :
  validate_request request = first_violation (request_rules request).
Proof.
  unfold validate_request, request_rules, dict_contains.
  destruct (dict_get request "jsonrpc") as [jsonrpc|]; cbn; [|reflexivity].
  destruct (eq_str jsonrpc "2.0"); cbn; [|reflexivity].
  destruct (dict_get request "method") as [method|]; cbn; [|reflexivity].
  destruct (isinstance_str method); cbn; [|reflexivity].
  destruct (dict_get request "params") as [params|]; cbn; [|reflexivity].
  destruct (isinstance_dict params); cbn; [|reflexivity].
  destruct (dict_get request "id") as [id|]; cbn; [|reflexivity].
  destruct (isinstance_str id || isinstance_int id); reflexivity.
Qed.

Lemma first_violation_nonempty (rules : list (bool * string)) (msg : string) :
  Forall (fun rule => snd rule <> EmptyString) rules ->
  first_violation rules = Some msg -> msg <> EmptyString.
Proof.
  induction 1 as [|[[] m] rules Hm _ IH]; cbn; intros Hv.
  - discriminate.
  - auto.
  - now injection Hv as <-.
Qed.

Lemma validate_request_message_truthy (request : pydict) (msg : string) :
  validate_request request = Some msg -> error_is_truthy (Some msg) = true.
Proof.
  rewrite validate_request_first_violation. intros Hv.
  assert (msg <> EmptyString) as Hne.
  { apply (first_violation_nonempty (request_rules request)); [|exact Hv].
    unfold request_rules. repeat constructor; discriminate. }
  destruct msg; [contradiction|reflexivity].
Qed.

(** C5 (the code at the failing input): the request whose id is [True]
    satisfies the first three rules and violates the rule on the id, and
    [validate_request] answers [None] for it, where the repository's test
    expects the message of the id rule: [isinstance(True, (str, int))] holds
    in Python. *)
Theorem validate_request_accepts_bool_id :
  validate_request request_with_bool_id = None
  /\ dict_get request_with_bool_id "id" = Some (VBool true).
Proof. split; reflexivity. Qed.

(** C6: a response that carries both [result] and [error] is rejected, one
    that carries neither is rejected, and a response that [validate_response]
    accepts carries exactly one of the two. *)
Theorem validate_response_result_xor_error (response : pydict) :
  (dict_contains "result" response = true -> dict_contains "error" response = true ->
   exists msg, validate_response response = Some msg)
  /\ (dict_contains "result" response = false -> dict_contains "error" response = false ->
      exists msg, validate_response response = Some msg)
  /\ (validate_response response = None ->
      xorb (dict_contains "result" response) (dict_contains "error" response) = true).
Proof.
  unfold validate_response.
  destruct (dict_get response "jsonrpc") as [jsonrpc|];
    [|repeat split; intros; eauto; discriminate].
  destruct (negb (eq_str jsonrpc "2.0"));
    [repeat split; intros; eauto; discriminate|].
  destruct (dict_get response "id") as [id|];
    [|repeat split; intros; eauto; discriminate].
  destruct (negb (isinstance_str id || isinstance_int id) && negb (is_none id));
    [repeat split; intros; eauto; discriminate|].
  destruct (dict_contains "result" response), (dict_contains "error" response); cbn;
    repeat split; intros; eauto; discriminate.
Qed.

(** A response with a result and no error. *)
Lemma validate_response_result_xor_error_witness :
  validate_response result_response = None
  /\ xorb (dict_contains "result" result_response)
          (dict_contains "error" result_response) = true.
Proof.
  split; [reflexivity|].
  apply (proj2 (proj2 (validate_response_result_xor_error result_response))).
  reflexivity.
Defined.

(** C7: [create_request] raises exactly when [validate_request] rejects the
    envelope it has built, with that message, and returns the envelope
    otherwise; for a method that is a string, params that are a mapping and
    an id that is a string or an integer it returns the envelope, and
    [validate_request] answers [None] for that envelope. *)
Theorem create_request_self_validates :
  (forall method params request_id : pyval,
      create_request method params request_id =
      match validate_request (request_envelope method params request_id) with
      | None => Ok (request_envelope method params request_id)
      | Some msg => Raise (ValueError (String.append "Invalid request: " msg))
      end)
  /\ (forall (method : string) (params : pydict) (request_id : string + Z),
         let request := request_envelope (VStr method) (VDict params) (id_value request_id) in
         create_request (VStr method) (VDict params) (id_value request_id) = Ok request
         /\ validate_request request = None).
Proof.
  split.
  - intros method params request_id. unfold create_request.
    destruct (validate_request _) as [msg|] eqn:Hv; [|reflexivity].
    now rewrite (validate_request_message_truthy _ _ Hv).
  - intros method params [s|n]; split; reflexivity.
Qed.

End ValidatorFacts.

(** ** The stdio transport *)

Module StdioFacts.
Import JsonRpcMessage Stdio Streams.

#[local] Arguments id_mismatch : simpl never.
#[local] Arguments is_final : simpl never.

Section WithJson.

Variable dumps : pydict -> result py_exception unit.
Variable loads : string -> decoded.

(** *** The two tests on an envelope *)




(** *** The request and the drain *)

Lemma create_request_Ok (method params request_id : pyval) (request : pydict) :
  create_request method params request_id = Ok request ->
  request = request_envelope method params request_id.
Proof.
  unfold create_request.
  destruct (error_is_truthy _); [destruct (ProtocolValidator.validate_request _)|];
    congruence.
Qed.

(** The write hands the request to the pipe and the drain raises. *)
Lemma write_raises (request : pydict) (self : StdioTransport) :
  write request self = (hand_over request self, Raise (Builtin_exn (write_error self))).
Proof.
  unfold write, writer_write, writer_drain, bindM, raise, hand_over, write_error.
  now destruct (writer self) as [[[| |e] ?]|].
Qed.

(** What the [try] has done when it leaves by the drain, or before it. *)
Lemma send_request_cases (method params : pyval) (rid : Z) (self : StdioTransport) :
  send_request dumps method params rid self =
  match create_request method params (VInt rid) with
  | Raise e => (self, Raise (Builtin_exn e))
  | Ok request =>
      match dumps request with
      | Raise e => (self, Raise (Builtin_exn e))
      | Ok _ => (hand_over request self, Raise (Builtin_exn (write_error self)))
      end
  end.
Proof.
  unfold send_request, bindM, lift.
  destruct (create_request _ _ _) as [request|e]; [|reflexivity].
  destruct (dumps request) as [u|e]; [|reflexivity].
  apply write_raises.
Qed.

Lemma send_request_raises (method params : pyval) (rid : Z) (self : StdioTransport) :
  exists e, snd (send_request dumps method params rid self) = Raise (Builtin_exn e).
Proof.
  rewrite send_request_cases.
  destruct (create_request _ _ _) as [request|e]; [|cbn; eauto].
  destruct (dumps request) as [u|e]; cbn; eauto.
Qed.

Lemma hand_over_frame (request : pydict) (self : StdioTransport) :
  process (hand_over request self) = process self
  /\ reader (hand_over request self) = reader self
  /\ writer (hand_over request self) = writer self
  /\ request_id (hand_over request self) = request_id self.
Proof.
  unfold hand_over.
  destruct (writer self) as [[[| |e] ?]|] eqn:E; repeat split; try reflexivity; exact E.
Qed.

Lemma send_request_frame (method params : pyval) (rid : Z) (self : StdioTransport) :
  process (fst (send_request dumps method params rid self)) = process self
  /\ reader (fst (send_request dumps method params rid self)) = reader self
  /\ writer (fst (send_request dumps method params rid self)) = writer self
  /\ request_id (fst (send_request dumps method params rid self)) = request_id self.
Proof.
  rewrite send_request_cases.
  destruct (create_request _ _ _) as [request|e]; [|now repeat split].
  destruct (dumps request) as [u|e]; [|now repeat split].
  apply hand_over_frame.
Qed.

(** [send_message] on a connected transport, as far as it gets. *)
Lemma send_message_connected (method params : pyval) (self : StdioTransport) :
  connected self = true ->
  send_message dumps loads method params self =
  let self1 := with_request_id (request_id self + 1) self in
  match send_request dumps method params (request_id self + 1) self1 with
  | (self2, Ok _) => (self2, Raise (no_drain ErrorSending))
  | (self2, Raise e) => (self2, Raise (reraise ErrorSending e))
  end.
Proof.
  unfold connected, send_message. intros Hc.
  destruct (writer self) as [w|], (reader self) as [r|]; try discriminate Hc.
  cbv zeta. unfold send_message_body, bindM. cbn [request_id with_request_id].
  pose proof (send_request_raises method params (request_id self + 1)
                (with_request_id (request_id self + 1) self)) as [e He].
  destruct (send_request _ _ _ _) as [self2 [u|e']]; [discriminate He|reflexivity].
Qed.

(** The first resumption of a streaming call on a connected transport, as
    far as it gets. *)
Lemma anext_created_connected (method params : pyval) (self : StdioTransport) :
  connected self = true ->
  anext dumps loads (Created method params) self =
  let self1 := with_request_id (request_id self + 1) self in
  match send_request dumps method params (request_id self + 1) self1 with
  | (self2, Ok _) => (self2, Finished, Raised (no_drain ErrorStreaming))
  | (self2, Raise e) => (self2, Finished, Raised (reraise ErrorStreaming e))
  end.
Proof.
  unfold connected, anext. intros Hc.
  destruct (writer self) as [w|], (reader self) as [r|]; try discriminate Hc.
  cbv zeta. cbn [request_id with_request_id].
  pose proof (send_request_raises method params (request_id self + 1)
                (with_request_id (request_id self + 1) self)) as [e He].
  destruct (send_request _ _ _ _) as [self2 [u|e']]; [discriminate He|reflexivity].
Qed.

Lemma send_message_not_connected (method params : pyval) (self : StdioTransport) :
  connected self = false ->
  send_message dumps loads method params self =
  (self, Raise (Transport_exn (mkTransportError NotConnected None))).
Proof.
  unfold connected, send_message.
  destruct (writer self), (reader self); try discriminate; reflexivity.
Qed.

Lemma anext_created_not_connected (method params : pyval) (self : StdioTransport) :
  connected self = false ->
  anext dumps loads (Created method params) self =
  (self, Finished, Raised (Transport_exn (mkTransportError NotConnected None))).
Proof.
  unfold connected, anext.
  destruct (writer self), (reader self); try discriminate; reflexivity.
Qed.

(** The first resumption ends the generator with an exception. *)
Lemma anext_created_finishes (method params : pyval) (self : StdioTransport) :
  exists self' e,
    anext dumps loads (Created method params) self =
    (self', Finished, Raised (Transport_exn e))
    /\ reader self' = reader self
    /\ streaming_text (message e) = true.
Proof.
  destruct (connected self) eqn:Hc.
  - rewrite (anext_created_connected _ _ _ Hc). cbv zeta.
    pose proof (send_request_raises method params (request_id self + 1)
                  (with_request_id (request_id self + 1) self)) as [e He].
    pose proof (send_request_frame method params (request_id self + 1)
                  (with_request_id (request_id self + 1) self)) as (_ & Hr & _).
    destruct (send_request _ _ _ _) as [self2 [u|e']]; [discriminate He|].
    cbn [snd fst] in *. injection He as ->. cbn [reraise].
    eexists _, _. split; [reflexivity|]. split; [exact Hr|reflexivity].
  - rewrite (anext_created_not_connected _ _ _ Hc).
    eexists _, _. split; [reflexivity|split; reflexivity].
Qed.

(** *** The reading loop *)



(** *** One resumption *)






Lemma async_for_step (n : nat) (g : generator) (self : StdioTransport) :
  async_for dumps loads (S n) g self =
  continue_with dumps loads n (anext dumps loads g self).
Proof. reflexivity. Qed.

(** *** End of stream *)



(** *** The id counter *)

Lemma run_loop_frame (rid : Z) (self : StdioTransport) :
  request_id (fst (fst (run_loop loads rid self))) = request_id self
  /\ wire (fst (fst (run_loop loads rid self))) = wire self.
Proof.
  unfold run_loop. destruct (reader self) as [r|]; [|now split].
  destruct (read_responses loads rid (at_end r) (arrivals r)) as [rest [[response|]|e]];
    now split.
Qed.

Lemma anext_frame (g : generator) (self : StdioTransport) :
  started g = true ->
  request_id (fst (fst (anext dumps loads g self))) = request_id self
  /\ wire (fst (fst (anext dumps loads g self))) = wire self.
Proof.
  destruct g as [method params|rid response|]; cbn; [discriminate| |now split].
  intros _. destruct (is_final response) as [[]|e]; try now split.
  apply run_loop_frame.
Qed.

(** The counter and the wire once the request has been built and written. *)
Lemma send_request_effect (method params : pyval) (rid : Z) (self : StdioTransport) :
  request_id (fst (send_request dumps method params rid self)) = request_id self
  /\ (wire (fst (send_request dumps method params rid self)) = wire self
      \/ wire (fst (send_request dumps method params rid self)) =
         wire self ++ [request_envelope method params (VInt rid)]).
Proof.
  rewrite send_request_cases.
  destruct (create_request _ _ _) as [request|e] eqn:Hc; cbn; [|auto].
  apply create_request_Ok in Hc as ->.
  destruct (dumps _); cbn; [|auto].
  unfold hand_over. destruct (writer self) as [[[| |e] ?]|]; cbn; auto.
Qed.

Lemma anext_created_effect (method params : pyval) (self : StdioTransport) :
  let self' := fst (fst (anext dumps loads (Created method params) self)) in
  request_id self' = (if connected self then request_id self + 1 else request_id self)
  /\ (wire self' = wire self
      \/ (connected self = true
          /\ wire self' = wire self ++ [request_envelope method params
                                          (VInt (request_id self + 1))])).
Proof.
  cbv zeta. destruct (connected self) eqn:Hc.
  - rewrite (anext_created_connected _ _ _ Hc). cbv zeta.
    pose proof (send_request_effect method params (request_id self + 1)
                  (with_request_id (request_id self + 1) self)) as Hq.
    destruct (send_request _ _ _ _) as [self1 [u|e]]; cbn in Hq |- *;
      destruct Hq as [? [?|?]]; auto.
  - rewrite (anext_created_not_connected _ _ _ Hc). cbn. auto.
Qed.

Lemma send_message_effect (method params : pyval) (self : StdioTransport) :
  let self' := fst (send_message dumps loads method params self) in
  request_id self' = (if connected self then request_id self + 1 else request_id self)
  /\ (wire self' = wire self
      \/ (connected self = true
          /\ wire self' = wire self ++ [request_envelope method params
                                          (VInt (request_id self + 1))])).
Proof.
  cbv zeta. destruct (connected self) eqn:Hc.
  - rewrite (send_message_connected _ _ _ Hc). cbv zeta.
    pose proof (send_request_effect method params (request_id self + 1)
                  (with_request_id (request_id self + 1) self)) as Hq.
    destruct (send_request _ _ _ _) as [self1 [u|e]]; cbn in Hq |- *;
      destruct Hq as [? [?|?]]; auto.
  - rewrite (send_message_not_connected _ _ _ Hc). cbn. auto.
Qed.

Lemma disconnect_frame (self : StdioTransport) :
  request_id (fst (disconnect self)) = request_id self
  /\ wire (fst (disconnect self)) = wire self.
Proof.
  unfold disconnect. destruct (writer self) as [[? []]|]; cbn; try now split.
  destruct (process self) as [p|]; cbn; [destruct (poll_is_None p)|]; now split.
Qed.

Lemma run_call_takes_next_id (c : call) (s : session) :
  takes_next_id (fst s) (fst (run_call dumps loads c s)).
Proof.
  unfold takes_next_id. destruct s as [self generators].
  destruct c as [env| |method params|method params|i]; cbn [run_call fst].
  - left. destruct env; now split.
  - left. apply disconnect_frame.
  - pose proof (send_message_effect method params self) as He. cbv zeta in He.
    destruct He as [Hid Hw].
    destruct (connected self); [right|left]; split; try exact Hid.
    + destruct Hw as [?|[_ ?]]; eauto.
    + destruct Hw as [?|[? _]]; [assumption|discriminate].
  - left. now split.
  - destruct (nth_error generators i) as [g|]; [|left; now split].
    destruct (started g) eqn:Hg.
    + pose proof (anext_frame g self Hg) as Hf.
      destruct (anext dumps loads g self) as [[self1 g1] r]. left. exact Hf.
    + destruct g as [method params| |]; try discriminate Hg.
      pose proof (anext_created_effect method params self) as He. cbv zeta in He.
      destruct (anext dumps loads (Created method params) self) as [[self1 g1] r].
      cbn [fst] in He |- *. destruct He as [Hid Hw].
      destruct (connected self); [right|left]; split; try exact Hid.
      * destruct Hw as [?|[_ ?]]; eauto.
      * destruct Hw as [?|[? _]]; [assumption|discriminate].
Qed.

Lemma StronglySorted_snoc (ks : list Z) (x : Z) :
  StronglySorted Z.lt ks -> Forall (fun k => k < x) ks ->
  StronglySorted Z.lt (ks ++ [x]).
Proof.
  induction 1 as [|k ks Hs IH Hk]; intros Hx; cbn.
  - repeat constructor.
  - inversion Hx as [|? ? Hkx Hx']; subst. constructor; [auto|].
    apply Forall_app. split; [exact Hk|now constructor].
Qed.

Lemma takes_next_id_sequence (self self' : StdioTransport) :
  ids_in_sequence self -> takes_next_id self self' -> ids_in_sequence self'.
Proof.
  unfold ids_in_sequence, wire_ids.
  intros (Hpos & ks & Hids & Hsorted & Hbound)
         [[Hid Hw]|[Hid [Hw|(method & params & Hw)]]].
  - rewrite Hid, Hw. split; [assumption|]. now exists ks.
  - rewrite Hid, Hw. split; [lia|]. exists ks. repeat split; try assumption.
    eapply Forall_impl; [|exact Hbound]. cbn. intros; lia.
  - rewrite Hid, Hw. split; [lia|].
    exists (ks ++ [request_id self + 1]). rewrite !map_app, Hids.
    repeat split.
    + apply StronglySorted_snoc; [assumption|].
      eapply Forall_impl; [|exact Hbound]. cbn. intros; lia.
    + apply Forall_app. split.
      * eapply Forall_impl; [|exact Hbound]. cbn. intros; lia.
      * repeat constructor; lia.
Qed.

Lemma run_calls_sequence (calls : list call) :
  forall s : session,
    ids_in_sequence (fst s) -> ids_in_sequence (fst (run_calls dumps loads calls s)).
Proof.
  induction calls as [|c calls IH]; intros s Hs; [exact Hs|].
  cbn. apply IH.
  exact (takes_next_id_sequence _ _ Hs (run_call_takes_next_id c s)).
Qed.

(** C10: [send_message] and the first resumption of
    [send_streaming_message] (the body of the generator starts there) leave
    the counter and the wire alone and raise "not connected" when the writer
    or the reader is not set; otherwise they add one to the counter,
    whatever happens afterwards, and write at most one envelope, which
    carries the new value of the counter as its id.  Later resumptions of a
    generator touch neither the counter nor the wire.  Hence, after any
    sequence of calls on a transport just created (connections, sends,
    streaming calls and resumptions of their generators in any order), the
    ids on the wire are integers between 1 and the counter, each larger than
    the ones before it: no id is ever reused. *)
Theorem request_ids_never_reused :
  (forall (method params : pyval) (self : StdioTransport),
      let self' := fst (send_message dumps loads method params self) in
      request_id self' = (if connected self then request_id self + 1 else request_id self)
      /\ (wire self' = wire self
          \/ (connected self = true
              /\ wire self' = wire self ++ [request_envelope method params
                                              (VInt (request_id self + 1))]))
      /\ (if connected self then True
          else snd (send_message dumps loads method params self) =
               Raise (Transport_exn (mkTransportError NotConnected None))))
  /\ (forall (method params : pyval) (self : StdioTransport),
         let self' := fst (fst (anext dumps loads (Created method params) self)) in
         request_id self' = (if connected self then request_id self + 1 else request_id self)
         /\ (wire self' = wire self
             \/ (connected self = true
                 /\ wire self' = wire self ++ [request_envelope method params
                                                 (VInt (request_id self + 1))]))
         /\ (if connected self then True
             else snd (anext dumps loads (Created method params) self) =
                  Raised (Transport_exn (mkTransportError NotConnected None))))
  /\ (forall (rid : Z) (response : pyval) (self : StdioTransport),
         let self' := fst (fst (anext dumps loads (Suspended rid response) self)) in
         request_id self' = request_id self /\ wire self' = wire self)
  /\ (forall (calls : list call) (process : option Popen),
         ids_in_sequence (fst (run_calls dumps loads calls (init process, [])))).
Proof.
  split; [|split; [|split]].
  - intros method params self. cbv zeta.
    pose proof (send_message_effect method params self) as He. cbv zeta in He.
    destruct He as [Hid Hw]. repeat split; [exact Hid|exact Hw|].
    unfold connected, send_message.
    now destruct (writer self), (reader self).
  - intros method params self. cbv zeta.
    pose proof (anext_created_effect method params self) as He. cbv zeta in He.
    destruct He as [Hid Hw]. repeat split; [exact Hid|exact Hw|].
    unfold connected, anext.
    now destruct (writer self), (reader self).
  - intros rid response self. now apply anext_frame.
  - intros calls process. apply run_calls_sequence. split; [cbn; lia|].
    exists []. repeat split; constructor.
Qed.

(** *** What the two methods raise *)

Lemma send_message_raises (method params : pyval) (self : StdioTransport) :
  snd (send_message dumps loads method params self) =
  Raise (Transport_exn (mkTransportError NotConnected None))
  \/ exists e, snd (send_message dumps loads method params self) =
               Raise (Transport_exn (mkTransportError (ErrorSending e) (Some e))).
Proof.
  destruct (connected self) eqn:Hc.
  - right. rewrite (send_message_connected _ _ _ Hc). cbv zeta.
    pose proof (send_request_raises method params (request_id self + 1)
                  (with_request_id (request_id self + 1) self)) as [e He].
    destruct (send_request _ _ _ _) as [self2 [u|e']]; [discriminate He|].
    cbn [snd] in *. injection He as ->. now exists e.
  - left. now rewrite (send_message_not_connected _ _ _ Hc).
Qed.



End WithJson.

(** *** The theorems at the lines of a scenario *)

Import Scenario.



(** C9 (the code at the failing input): the transport is connected to a
    child whose next line carries the id 3.  [send_message] takes the id 1,
    hands the request to the pipe and then calls [drain()] on the pipe,
    which has no such method: it raises "Error sending message" with the
    [AttributeError] as cause, before any line is read.  The line with the
    foreign id is still in the reader and the id mismatch is not reported.
    For no transport, method and parameters does [send_message] raise the
    [TransportError] of the id mismatch. *)
Theorem send_message_id_mismatch :
  let loads := table_loads stream_table in
  let self := connected_to ["other-3"; "extra"] in
  let sent := send_message dumps_any loads (VStr "ping") (VDict []) self in
  (envelope_of loads "other-3" = Some other_3 /\ answers 1 other_3 = false)
  /\ snd sent = Raise (no_drain ErrorSending)
  /\ reader (fst sent) = reader self
  /\ wire (fst sent) = [request_envelope (VStr "ping") (VDict []) (VInt 1)]
  /\ (forall dumps loads method params self expected got c,
         snd (send_message dumps loads method params self) <>
         Raise (Transport_exn (mkTransportError (IdMismatch expected got) c))).
Proof.
  cbv zeta. repeat split.
  intros dumps loads method params self expected got c.
  destruct (send_message_raises dumps loads method params self) as [->|[e ->]];
    discriminate.
Qed.

(** C8 (the code at the failing input): the transport is connected to a
    child that delivers a stale answer, a partial envelope with the id 1, a
    notification, the terminal envelope with the id 1, and one more line.
    The first resumption of the generator takes the id 1, hands the request
    to the pipe and then calls [drain()] on the pipe, which has no such
    method: the consumer gets no envelope and a [TransportError], "Error in
    streaming message" with the [AttributeError] as cause; all five lines
    are still in the reader.  For no transport, method and parameters does
    the first resumption of a streaming call yield. *)
Theorem send_streaming_message_two_envelopes :
  let loads := table_loads stream_table in
  let self := connected_to ["other-3"; "chunk-1"; "notify"; "final-1"; "extra"] in
  let run := async_for dumps_any loads 3 (Created (VStr "tools/call") (VDict [])) self in
  (partial_chunk loads 1 "chunk-1" = true /\ terminal loads 1 "final-1" = true)
  /\ snd (fst run) = []
  /\ snd run = Some (Failed (no_drain ErrorStreaming))
  /\ reader (fst (fst run)) = reader self
  /\ wire (fst (fst run)) = [request_envelope (VStr "tools/call") (VDict []) (VInt 1)]
  /\ (forall dumps loads method params self response,
         snd (anext dumps loads (Created method params) self) <> Yield response).
Proof.
  cbv zeta. repeat split.
  intros dumps loads method params self response.
  destruct (anext_created_finishes dumps loads method params self) as (s & e & -> & _).
  discriminate.
Qed.

End StdioFacts.

(** ** The protocol client *)

Module ClientFacts.
Import Exceptions Client Replies Scenario.

#[local] Arguments contains : simpl never.
#[local] Arguments subscript : simpl never.
#[local] Arguments get : simpl never.

Section WithTransport.

Context {T : Type} {ops : Transport T}.

Lemma get_is_dict (v : pyval) (k : string) (default x : pyval) :
  get v k default = Ok x -> exists d, v = VDict d.
Proof. destruct v; try discriminate. eauto. Qed.

Lemma error_envelope_members (r : result exn pyval) (error : pydict) :
  error_envelope r error ->
  exists response,
    r = Ok response
    /\ contains "result" response = Ok false
    /\ contains "error" response = Ok true
    /\ subscript response "error" = Ok (VDict error).
Proof.
  intros (d & -> & Hres & Herr). exists (VDict d).
  unfold contains, subscript, dict_contains. now rewrite Hres, Herr.
Qed.

(** Case analysis on an innermost scrutinee of a hypothesis. *)
Ltac split_cases H :=
  repeat match type of H with
         | context [match ?x with _ => _ end] =>
             lazymatch x with
             | context [match _ with _ => _ end] => fail
             | _ => destruct x eqn:?; cbn in H
             end
         end.

(** C2 (as amended): [call_tool] performs one round trip whatever the tool
    name and whatever the capabilities stored by [initialize]: the transport
    is left as [send_message] of the [tools/call] request leaves it, and the
    capabilities are not touched.  It raises [InvalidToolError] exactly when
    the answer has no [result], has an [error], and the code of that error
    equals 1100. *)
Theorem call_tool_asks_the_server (tool_name : string) (params : pyval)
  (self : StandardProtocolClient T) :
  let sent :=
    send_message (VStr MessageMethod.TOOLS_CALL) (call_tool_params tool_name params)
      (transport self) in
  transport (fst (call_tool tool_name params self)) = fst sent
  /\ capabilities (fst (call_tool tool_name params self)) = capabilities self
  /\ (raises_class (snd (call_tool tool_name params self)) InvalidToolError_class
      <-> reports_invalid_tool (snd sent)).
Proof.
  cbv zeta. unfold call_tool.
  destruct (send_message _ _ _) as [t r]. cbn [fst snd].
  split; [reflexivity|]. split; [reflexivity|].
  unfold raises_class, reports_invalid_tool. split.
  - intros (e & Hr & Hc).
    unfold call_tool_except, call_tool_response, from_transport, from_python, bind in Hr.
    split_cases Hr; try discriminate; injection Hr as <-; try discriminate Hc.
    subst. eexists _, _, _. repeat split; eassumption.
  - intros (response & error & c & -> & Hres & Herr & Hsub & Hcode & Heq).
    destruct (get_is_dict _ _ _ _ Hcode) as [d ->].
    unfold call_tool_response, from_transport, from_python, bind.
    rewrite Hres, Herr, Hsub, Hcode. change 1100 with ErrorCodes.INVALID_TOOL.
    rewrite Heq. cbn. eexists. split; reflexivity.
Qed.

(** What [get_prompt] and [get_resource] make of an error envelope. *)
Lemma get_response_error (r : result exn pyval) (error : pydict) :
  error_envelope r error ->
  get_except (get_response r) =
  Raise (Protocol_exn
           (MCPProtocolError_new
              (FromServer (dict_get_default error "message" (VStr "Unknown error")))
              (dict_get_default error "code" (VInt 0))
              (Data (dict_get_default error "data" VNone)))).
Proof.
  intros (response & -> & Hres & Herr & Hsub)%error_envelope_members.
  unfold get_response, from_transport, from_python, bind.
  now rewrite Hres, Herr, Hsub.
Qed.

(** C4 (as amended): when the server answers [get_prompt] or [get_resource]
    with an error envelope, whatever its code (1201 and 1301 included), the
    client raises an instance of [MCPProtocolError] itself, which carries the
    code, the message and the data of the envelope; the code is all that
    tells "not found" from another server error. *)
Theorem get_prompt_get_resource_generic_error (name : string) (params : pyval)
  (self : StandardProtocolClient T) (error : pydict) :
  (error_envelope
     (snd (send_message (VStr MessageMethod.PROMPTS_GET) (get_params name params)
             (transport self))) error ->
   snd (get_prompt name params self) =
   Raise (Protocol_exn
            (mkMCPProtocolError MCPProtocolError_class
               (FromServer (dict_get_default error "message" (VStr "Unknown error")))
               (dict_get_default error "code" (VInt 0))
               (Data (dict_get_default error "data" VNone)))))
  /\ (error_envelope
        (snd (send_message (VStr MessageMethod.RESOURCES_GET) (get_params name params)
                (transport self))) error ->
      snd (get_resource name params self) =
      Raise (Protocol_exn
               (mkMCPProtocolError MCPProtocolError_class
                  (FromServer (dict_get_default error "message" (VStr "Unknown error")))
                  (dict_get_default error "code" (VInt 0))
                  (Data (dict_get_default error "data" VNone))))).
Proof.
  split; intros He.
  - unfold get_prompt. destruct (send_message _ _ _) as [t r]. cbn [snd] in *.
    now apply get_response_error.
  - unfold get_resource. destruct (send_message _ _ _) as [t r]. cbn [snd] in *.
    now apply get_response_error.
Qed.

(** When the transport raises on the shutdown notification, [shutdown]
    answers [False] (a [CancelledError] passes through) and leaves the
    transport as that call left it: [disconnect] is not called. *)
Lemma shutdown_after_failed_send (self : StandardProtocolClient T) (e : exn) :
  snd (send_message (VStr MessageMethod.SHUTDOWN) (VDict []) (transport self)) = Raise e ->
  shutdown self =
  (with_transport
     (fst (send_message (VStr MessageMethod.SHUTDOWN) (VDict []) (transport self))) self,
   match e with
   | Transport_exn _ | Builtin_exn _ => Ok false
   | CancelledError => Raise (Other_exn CancelledError)
   end).
Proof.
  unfold shutdown. destruct (send_message _ _ _) as [t r]. cbn. now intros ->.
Qed.

End WithTransport.

(** *** The theorems at the lines of a scenario *)

(** The server answers the call of the tool [missing] with the code 1100. *)
Lemma call_tool_asks_the_server_witness :
  raises_class
    (snd (@call_tool _ scripted "missing" (VDict [])
            (served [Ok (error_reply 1100 "Invalid tool")])))
    InvalidToolError_class.
Proof.
  apply (proj2 (proj2 (@call_tool_asks_the_server _ scripted "missing" (VDict [])
                         (served [Ok (error_reply 1100 "Invalid tool")])))).
  exists (error_reply 1100 "Invalid tool"),
         (VDict [("code", VInt 1100); ("message", VStr "Invalid tool")]),
         (VInt 1100).
  repeat split.
Defined.

(** C2 (counterexample): [initialize] has stored capabilities whose only
    tool is [echo]; [call_tool] for the tool [missing] sends a [tools/call]
    request to the transport, gets the answer of the server and returns its
    result; it does not raise [InvalidToolError].  Over the stdio transport
    the request for the tool [missing] is handed to the pipe as well, and
    what [call_tool] raises is a [ToolExecutionError]. *)
Lemma call_tool_unknown_name_round_trip :
  let ready := fst (@initialize _ scripted (served [Ok init_reply; Ok call_reply])) in
  let called := @call_tool _ scripted "missing" (VDict []) ready in
  let on_stdio := @call_tool _ (scenario_ops []) "missing" (VDict []) (client_on []) in
  capabilities ready = Some echo_only
  /\ snd called = Ok (VDict [("output", VStr "done")])
  /\ requests (transport (fst called)) =
     requests (transport ready)
     ++ [(VStr "tools/call", call_tool_params "missing" (VDict []))]
  /\ ~ (raises_class (snd called) InvalidToolError_class
        /\ requests (transport (fst called)) = requests (transport ready))
  /\ Stdio.wire (transport (fst on_stdio)) =
     [JsonRpcMessage.request_envelope (VStr "tools/call")
        (call_tool_params "missing" (VDict [])) (VInt 1)]
  /\ raises_class (snd on_stdio) ToolExecutionError_class.
Proof.
  cbv zeta. repeat split.
  - intros [(e & He & _) _]. vm_compute in He. discriminate He.
  - eexists. split; reflexivity.
Qed.

(** The server answers with the codes 1201 and 1301. *)
Lemma get_prompt_get_resource_generic_error_witness :
  snd (@get_prompt _ scripted "greeting" VNone
         (served [Ok (error_reply 1201 "Prompt not found")])) =
  Raise (Protocol_exn
           (mkMCPProtocolError MCPProtocolError_class
              (FromServer (VStr "Prompt not found")) (VInt 1201) (Data VNone)))
  /\ snd (@get_resource _ scripted "readme" VNone
            (served [Ok (error_reply 1301 "Resource not found")])) =
     Raise (Protocol_exn
              (mkMCPProtocolError MCPProtocolError_class
                 (FromServer (VStr "Resource not found")) (VInt 1301) (Data VNone))).
Proof.
  split.
  - apply (proj1 (@get_prompt_get_resource_generic_error _ scripted
                    "greeting" VNone (served [Ok (error_reply 1201 "Prompt not found")])
                    [("code", VInt 1201); ("message", VStr "Prompt not found")])).
    eexists. repeat split.
  - apply (proj2 (@get_prompt_get_resource_generic_error _ scripted
                    "readme" VNone (served [Ok (error_reply 1301 "Resource not found")])
                    [("code", VInt 1301); ("message", VStr "Resource not found")])).
    eexists. repeat split.
Defined.

(** C4 (counterexample): the server answers [get_prompt] with code 1201 and
    [get_resource] with code 1301; what the client raises has the very class
    of what it raises for the unmapped code 4242. *)
Lemma not_found_has_the_generic_class :
  let prompt_1201 :=
    snd (@get_prompt _ scripted "greeting" VNone
           (served [Ok (error_reply 1201 "Prompt not found")])) in
  let prompt_4242 :=
    snd (@get_prompt _ scripted "greeting" VNone
           (served [Ok (error_reply 4242 "Out of cheese")])) in
  let resource_1301 :=
    snd (@get_resource _ scripted "readme" VNone
           (served [Ok (error_reply 1301 "Resource not found")])) in
  let resource_4242 :=
    snd (@get_resource _ scripted "readme" VNone
           (served [Ok (error_reply 4242 "Out of cheese")])) in
  ~ (exists e e', prompt_1201 = Raise (Protocol_exn e)
                  /\ prompt_4242 = Raise (Protocol_exn e')
                  /\ class_of e <> class_of e')
  /\ ~ (exists e e', resource_1301 = Raise (Protocol_exn e)
                     /\ resource_4242 = Raise (Protocol_exn e')
                     /\ class_of e <> class_of e').
Proof.
  cbv zeta. split; intros (e & e' & He & He' & Hne); apply Hne;
    vm_compute in He, He'; injection He as <-; injection He' as <-; reflexivity.
Qed.

(** C3 (the code at the failing input): the client is on a stdio transport
    that is connected to a running child.  [send_message] raises on the
    shutdown notification, and [shutdown] answers [False]; the transport
    still has its writer and its running child process: [disconnect], which
    would have cleared the one and stopped the other, has not been called. *)
Theorem shutdown_skips_disconnect :
  let ops := scenario_ops [] in
  let ready := client_on [] in
  let closed := @shutdown _ ops ready in
  snd (@send_message _ ops (VStr "shutdown") (VDict []) (transport ready)) =
    Raise (Streams.no_drain ErrorSending)
  /\ snd closed = Ok false
  /\ Stdio.writer (transport (fst closed)) = Some (Stdio.WritePipe Stdio.Takes false)
  /\ Stdio.process (transport (fst closed)) = Some (Stdio.Running Stdio.Exits false)
  /\ Stdio.writer (fst (Stdio.disconnect (transport (fst closed)))) = None
  /\ Stdio.process (fst (Stdio.disconnect (transport (fst closed)))) =
     Some Stdio.Terminated.
Proof. cbv zeta. repeat split. Qed.

End ClientFacts.

(** ** Tool results, responses and errors *)

Module CodecFacts.
Import ProtocolValidator JsonRpcMessage ToolResults Codec Rules MoreRules.

Lemma check_entries_accepts (entries : list pyval) :
  check_entries entries = None <-> forallb entry_ok entries = true.
Proof.
  induction entries as [|entry entries IH]; cbn; [tauto|].
  destruct entry as [| | | | | |d]; cbn; try (split; discriminate).
  destruct (dict_contains "name" d); cbn; [|split; discriminate].
  destruct (dict_get d "type") as [type|]; cbn; [|split; discriminate].
  destruct (eq_str type "file" || eq_str type "directory"); cbn;
    [exact IH|split; discriminate].
Qed.

(** X1: [validate_tool_result] is permissive: for every tool name other
    than [readFile], [writeFile], [listDirectory], [query] and [getTables]
    it answers [None] whatever the result is. *)
Theorem validate_tool_result_unknown_tool (tool_name : string) (result : pydict) :
  ~ In tool_name known_tools ->
  validate_tool_result tool_name result = None.
Proof.
  intros Hn. unfold validate_tool_result.
  repeat match goal with
         | |- context [String.eqb tool_name ?s] =>
             destruct (String.eqb_spec tool_name s) as [->|_];
             [exfalso; apply Hn; cbn; tauto|]
         end.
  reflexivity.
Qed.

(** The name of the protocol method is not one of the tool names. *)
Lemma validate_tool_result_unknown_tool_witness :
  validate_tool_result "fs/readFile" [] = None.
Proof.
  apply validate_tool_result_unknown_tool.
  cbn. intros [H|[H|[H|[H|[H|[]]]]]]; discriminate H.
Defined.

(** X2: a [listDirectory] result is accepted exactly when it has an
    [entries] member that is a list whose every element is a mapping with a
    [name] and a [type] equal to ["file"] or ["directory"]; the empty list
    is accepted. *)
Theorem validate_tool_result_listDirectory (result : pydict) :
  validate_tool_result "listDirectory" result = None
  <-> exists entries,
        dict_get result "entries" = Some (VList entries)
        /\ forallb entry_ok entries = true.
Proof.
  unfold validate_tool_result. cbn.
  destruct (dict_get result "entries") as [[| | | | |entries|]|];
    try (split; [discriminate|intros (? & [=] & _)]).
  rewrite check_entries_accepts. split.
  - eauto.
  - now intros (? & [= <-] & ?).
Qed.

(** X3: [create_response] raises exactly when the id is neither a str, an
    int nor [None], and with the message of the id rule; otherwise it
    returns the envelope, which carries the result unchanged, carries
    [partial] (as [True]) exactly when the flag is true, and which
    [validate_response] accepts. *)
Theorem create_response_self_validates (result request_id partial : pyval) :
  create_response result request_id partial =
  (if response_id_ok request_id
   then Ok (response_envelope result request_id partial)
   else Raise (ValueError
                 "Invalid response: Invalid 'id' type: must be a string, number, or null"))
  /\ dict_get (response_envelope result request_id partial) "result" = Some result
  /\ dict_get (response_envelope result request_id partial) "partial" =
     (if truthy partial then Some (VBool true) else None)
  /\ (if response_id_ok request_id
      then validate_response (response_envelope result request_id partial) = None
      else True).
Proof.
  unfold create_response, response_envelope, response_id_ok.
  destruct (truthy partial); cbn;
    destruct request_id; cbn; repeat split.
Qed.

(** X4: [create_error] returns the envelope exactly when the code is an int,
    the message a str and the id a str, an int or [None]; the envelope is
    accepted by [validate_response], and its error object has a [data]
    member exactly when the data is not [None]. *)
Theorem create_error_self_validates (code message request_id data : pyval) :
  (create_error code message request_id data =
   Ok (error_envelope code message request_id data)
   <-> isinstance_int code = true /\ isinstance_str message = true
       /\ response_id_ok request_id = true)
  /\ (forall envelope,
         create_error code message request_id data = Ok envelope ->
         validate_response envelope = None
         /\ exists error,
              dict_get envelope "error" = Some (VDict error)
              /\ dict_get error "code" = Some code
              /\ dict_get error "message" = Some message
              /\ dict_get error "data" = (if is_none data then None else Some data)).
Proof.
  unfold create_error, error_envelope, response_id_ok.
  destruct (is_none data) eqn:Hd; cbn;
    destruct request_id, code, message; cbn;
    (split; [split; [try discriminate; tauto|intros (? & ? & ?); try discriminate; reflexivity]|]);
    intros envelope [= <-]; cbn; (split; [reflexivity|]);
    eexists; repeat split.
Qed.

Lemma create_error_self_validates_witness :
  create_error (VInt 1201) (VStr "Prompt not found") (VInt 7) VNone =
  Ok (error_envelope (VInt 1201) (VStr "Prompt not found") (VInt 7) VNone).
Proof.
  apply (proj1 (create_error_self_validates (VInt 1201) (VStr "Prompt not found")
                  (VInt 7) VNone)).
  repeat split.
Defined.

Lemma create_response_Ok (result request_id partial : pyval) (envelope : pydict) :
  create_response result request_id partial = Ok envelope ->
  envelope = response_envelope result request_id partial
  /\ validate_response envelope = None.
Proof.
  unfold create_response, response_envelope.
  destruct (truthy partial); cbn; destruct request_id; cbn;
    intros [= <-]; split; reflexivity.
Qed.

Lemma create_error_Ok (code message request_id data : pyval) (envelope : pydict) :
  create_error code message request_id data = Ok envelope ->
  envelope = error_envelope code message request_id data
  /\ validate_response envelope = None.
Proof.
  unfold create_error, error_envelope.
  destruct (is_none data); cbn; destruct request_id, code, message; cbn;
    intros [= <-]; split; reflexivity.
Qed.

(** X5: whatever [create_request], [create_response] or [create_error]
    return is accepted by [validate_message]: a request is recognised by its
    [method] member, the other two have none and are checked as
    responses. *)
Theorem validate_message_accepts_constructed (envelope : pydict) :
  (exists method params request_id,
      create_request method params request_id = Ok envelope)
  \/ (exists result request_id partial,
         create_response result request_id partial = Ok envelope)
  \/ (exists code message request_id data,
         create_error code message request_id data = Ok envelope) ->
  validate_message envelope = None.
Proof.
  unfold validate_message.
  intros [(method & params & request_id & H)
         |[(result & request_id & partial & H)
          |(code & message & request_id & data & H)]].
  - pose proof H as Hc. unfold create_request in Hc.
    destruct (validate_request (request_envelope method params request_id))
      as [msg|] eqn:Hv.
    + rewrite (ValidatorFacts.validate_request_message_truthy _ _ Hv) in Hc.
      discriminate Hc.
    + cbn in Hc. injection Hc as <-. cbn [dict_contains dict_get String.eqb].
      cbn. exact Hv.
  - apply create_response_Ok in H as [-> Hv].
    replace (dict_contains "method" (response_envelope result request_id partial))
      with false; [exact Hv|].
    unfold response_envelope. now destruct (truthy partial).
  - apply create_error_Ok in H as [-> Hv].
    replace (dict_contains "method" (error_envelope code message request_id data))
      with false; [exact Hv|].
    reflexivity.
Qed.

Lemma validate_message_accepts_constructed_witness :
  validate_message (response_envelope (VStr "pong") (VInt 3) (VBool true)) = None.
Proof.
  apply validate_message_accepts_constructed.
  right. left. exists (VStr "pong"), (VInt 3), (VBool true). reflexivity.
Defined.

End CodecFacts.

(** ** More on the validator and the message table *)

Module TableFacts.
Import ProtocolValidator ErrorCodes ErrorMessages MoreRules Acceptance.

(** X6: [validate_response] answers [None] exactly for the mappings whose
    [jsonrpc] is ["2.0"], whose [id] is present and a str, an int or [None],
    that carry exactly one of [result] and [error], whose [error], when
    present, is a mapping with an int [code] and a str [message], and whose
    [partial], when present, is a bool. *)
Theorem validate_response_accepts (response : pydict) :
  validate_response response = None <-> response_ok response = true.
Proof.
  unfold validate_response, response_ok, validate_error_member, validate_partial_member,
    response_id_ok, dict_contains.
  destruct (dict_get response "jsonrpc") as [jsonrpc|]; cbn; [|split; discriminate].
  destruct (eq_str jsonrpc "2.0"); cbn;
    [|destruct (dict_get response "id"); split; discriminate].
  destruct (dict_get response "id") as [id|]; cbn; [|split; discriminate].
  destruct (isinstance_str id), (isinstance_int id), (is_none id); cbn;
    try (split; discriminate);
    (destruct (dict_get response "result") as [result|],
            (dict_get response "error") as [[| | | | | |error]|]; cbn;
     try (split; discriminate);
     try (destruct (dict_get error "code") as [code|]; cbn; [|split; discriminate];
          destruct (isinstance_int code); cbn;
            [|destruct (dict_get error "message"); split; discriminate];
          destruct (dict_get error "message") as [message|]; cbn; [|split; discriminate];
          destruct (isinstance_str message); cbn; [|split; discriminate]);
     (destruct (dict_get response "partial") as [partial|]; cbn; [|tauto];
      destruct (isinstance_bool partial); cbn; split; (discriminate || reflexivity))).
Qed.

Lemma lookup_None (table : list (Z * string)) (code : Z) :
  lookup table code = None <-> ~ In code (codes table).
Proof.
  induction table as [|[k msg] table IH]; cbn; [tauto|].
  destruct (Z.eqb_spec code k) as [->|Hne].
  - split; [discriminate|]. intros H. exfalso. apply H. now left.
  - rewrite IH. split; [intros H [?|?]; [congruence|auto]|tauto].
Qed.

Lemma lookup_injective (table : list (Z * string)) (c1 c2 : Z) (msg : string) :
  NoDup (map snd table) ->
  lookup table c1 = Some msg -> lookup table c2 = Some msg -> c1 = c2.
Proof.
  induction table as [|[k m] table IH]; cbn; [discriminate|].
  intros Hnd H1 H2. inversion Hnd as [|? ? Hnotin Hnd']; subst.
  assert (forall c, lookup table c = Some m -> False) as Hfresh.
  { clear -Hnotin. intros c. induction table as [|[k' m'] table IH]; cbn in *;
      [discriminate|].
    destruct (c =? k'); [intros [= ->]; tauto|]. apply IH. tauto. }
  destruct (Z.eqb_spec c1 k), (Z.eqb_spec c2 k); subst.
  - reflexivity.
  - injection H1 as <-. now apply Hfresh in H2.
  - injection H2 as <-. now apply Hfresh in H1.
  - eauto.
Qed.

Lemma messages_NoDup : NoDup (map snd messages).
Proof.
  cbn. repeat (constructor; [cbn; intuition discriminate|]). constructor.
Qed.

(** X7: [get_message] answers ["Unknown error"] exactly for the codes that
    are not in its table, and two different codes of the table never have
    the same message. *)
Theorem get_message_table (c1 c2 : Z) :
  (get_message c1 = "Unknown error" <-> ~ In c1 (codes messages))
  /\ (In c1 (codes messages) -> In c2 (codes messages) ->
      get_message c1 = get_message c2 -> c1 = c2).
Proof.
  split.
  - rewrite <- lookup_None. unfold get_message.
    destruct (lookup messages c1) as [msg|] eqn:Hl; [|tauto].
    split; [|discriminate]. intros ->. exfalso.
    assert (In "Unknown error" (map snd messages)) as Hin.
    { clear -Hl. induction messages as [|[k m] table IH]; cbn in *; [discriminate|].
      destruct (c1 =? k); [injection Hl as ->; now left|right; auto]. }
    cbn in Hin. intuition discriminate.
  - intros H1 H2. unfold get_message.
    destruct (lookup messages c1) as [m1|] eqn:Hl1;
      [|now apply lookup_None in Hl1].
    destruct (lookup messages c2) as [m2|] eqn:Hl2;
      [|now apply lookup_None in Hl2].
    intros ->. exact (lookup_injective _ _ _ _ messages_NoDup Hl1 Hl2).
Qed.

Lemma get_message_table_witness :
  In 1201 (codes messages) /\ In 1301 (codes messages)
  /\ (get_message 1201 = get_message 1301 -> 1201 = 1301).
Proof.
  assert (In 1201 (codes messages)) as H1 by (cbn; tauto).
  assert (In 1301 (codes messages)) as H2 by (cbn; tauto).
  repeat split; try assumption.
  exact (proj2 (get_message_table 1201 1301) H1 H2).
Defined.

End TableFacts.

(** ** More on the stdio transport *)

Module StdioMoreFacts.
Import JsonRpcMessage Stdio Streams MoreStreams StdioFacts.

#[local] Arguments id_mismatch : simpl never.
#[local] Arguments is_final : simpl never.

(** [disconnect], by the writer it finds. *)
Lemma disconnect_cases (self : StdioTransport) :
  match writer self with
  | Some (WritePipe _ true) =>
      disconnect self = (with_writer (Some (WritePipe Drops false)) self, false)
  | Some (WritePipe _ false) =>
      disconnect self =
      (with_process (option_map terminate_then_kill (process self))
         (with_writer None (with_reader None self)), true)
  | None => disconnect self = (self, true)
  end.
Proof.
  unfold disconnect.
  destruct (writer self) as [[? []]|]; cbn; try reflexivity;
    destruct self as [[[[] []| | |]|] r w i l]; reflexivity.
Qed.

(** X8: [disconnect] answers [False] exactly when [close()] raises.  The
    transport then keeps its reader, its writer and its child as they were,
    the pipe being marked as closing, so that a second [disconnect] goes
    through.  When [disconnect] answers [True] the writer is not set
    afterwards and another [disconnect] changes nothing.  In no case does it
    touch the id counter or the wire. *)
Theorem disconnect_outcomes (self : StdioTransport) :
  (snd (disconnect self) = false <-> exists w, writer self = Some (WritePipe w true))
  /\ (snd (disconnect self) = false ->
      fst (disconnect self) = with_writer (Some (WritePipe Drops false)) self
      /\ snd (disconnect (fst (disconnect self))) = true)
  /\ (snd (disconnect self) = true ->
      writer (fst (disconnect self)) = None
      /\ disconnect (fst (disconnect self)) = (fst (disconnect self), true))
  /\ request_id (fst (disconnect self)) = request_id self
  /\ wire (fst (disconnect self)) = wire self.
Proof.
  pose proof (disconnect_cases self) as H.
  destruct (writer self) as [[w []]|] eqn:Hw; rewrite H; cbn [fst snd].
  - split; [split; [eauto|reflexivity]|].
    split; [|split; [discriminate|split; reflexivity]].
    intros _. split; [reflexivity|].
    pose proof (disconnect_cases (with_writer (Some (WritePipe Drops false)) self)) as H2.
    cbn [writer with_writer] in H2. now rewrite H2.
  - split; [split; [discriminate|intros [w' [=]]]|].
    split; [discriminate|].
    split; [|split; reflexivity].
    intros _. split; [reflexivity|].
    pose proof (disconnect_cases
                  (with_process (option_map terminate_then_kill (process self))
                     (with_writer None (with_reader None self)))) as H2.
    cbn [writer with_process with_writer] in H2. exact H2.
  - split; [split; [discriminate|intros [w' [=]]]|].
    split; [discriminate|].
    split; [|split; reflexivity].
    intros _. split; [exact Hw|].
    pose proof (disconnect_cases self) as H2. now rewrite Hw in H2.
Qed.

(** X9: [disconnect] reaches the child only through the branch that closes
    the writer.  On a transport whose writer it can close, it clears reader
    and writer, and a child that was running runs afterwards exactly when
    [terminate()] raised, or the child was still there 100 ms later and
    [kill()] raised.  On a transport without writer (for instance after
    [connect] failed on one of the pipes) it does nothing at all, so a
    running child keeps running. *)
Theorem disconnect_reaps_only_with_writer (self : StdioTransport) :
  (forall w, writer self = Some w -> snd (disconnect self) = true ->
             reader (fst (disconnect self)) = None
             /\ writer (fst (disconnect self)) = None
             /\ forall p, process self = Some p ->
                          exists p', process (fst (disconnect self)) = Some p'
                                     /\ poll_is_None p' = still_running p)
  /\ (writer self = None -> fst (disconnect self) = self)
  /\ (forall env, writer self = None -> snd (connect env self) = false ->
                  process (fst (disconnect (fst (connect env self)))) = process self).
Proof.
  split; [|split].
  - intros w Hw. pose proof (disconnect_cases self) as H. rewrite Hw in H.
    destruct w as [w []]; rewrite H; cbn [fst snd]; try discriminate; intros _;
      (split; [reflexivity|split; [reflexivity|]]); intros p Hp; cbn; rewrite Hp;
      destruct p as [[] []| | |]; cbn; eexists; split; reflexivity.
  - intros Hw. pose proof (disconnect_cases self) as H. rewrite Hw in H. now rewrite H.
  - intros env Hw Hc.
    pose proof (disconnect_cases (fst (connect env self))) as H.
    destruct env as [incoming w| |incoming]; cbn in Hc, H |- *;
      [discriminate| |]; rewrite Hw in H; now rewrite H.
Qed.

Section WithJson.

Variable dumps : pydict -> result py_exception unit.
Variable loads : string -> decoded.

(** X10: [send_message] does not get past the drain.  Whatever the state of
    the transport, the method and the parameters, it raises a
    [TransportError] and reads nothing: it never returns a response.  On a
    connected transport, for a request that [create_request] accepts and
    [json.dumps] serialises, it takes the next id, hands the request to the
    pipe and raises "Error sending message", whose cause is the
    [AttributeError] of [drain()], which the pipe does not have (or the
    exception of [write()] when that raised already). *)
Theorem send_message_stops_at_drain (method params : pyval) (self : StdioTransport) :
  (exists e, snd (send_message dumps loads method params self) = Raise (Transport_exn e))
  /\ reader (fst (send_message dumps loads method params self)) = reader self
  /\ writer (fst (send_message dumps loads method params self)) = writer self
  /\ (forall request,
         connected self = true ->
         create_request method params (VInt (request_id self + 1)) = Ok request ->
         dumps request = Ok tt ->
         send_message dumps loads method params self =
         (hand_over request (with_request_id (request_id self + 1) self),
          Raise (Transport_exn
                   (mkTransportError (ErrorSending (write_error self))
                      (Some (write_error self)))))).
Proof.
  split; [|split; [|split]].
  - destruct (send_message_raises dumps loads method params self) as [->|[e ->]]; eauto.
  - destruct (connected self) eqn:Hc.
    + rewrite (send_message_connected _ _ _ _ _ Hc). cbv zeta.
      pose proof (send_request_frame dumps method params (request_id self + 1)
                    (with_request_id (request_id self + 1) self)) as (_ & Hr & _).
      destruct (send_request _ _ _ _ _) as [self2 [u|e]]; exact Hr.
    + now rewrite (send_message_not_connected _ _ _ _ _ Hc).
  - destruct (connected self) eqn:Hc.
    + rewrite (send_message_connected _ _ _ _ _ Hc). cbv zeta.
      pose proof (send_request_frame dumps method params (request_id self + 1)
                    (with_request_id (request_id self + 1) self)) as (_ & _ & Hw & _).
      destruct (send_request _ _ _ _ _) as [self2 [u|e]]; exact Hw.
    + now rewrite (send_message_not_connected _ _ _ _ _ Hc).
  - intros request Hc Hreq Hd.
    rewrite (send_message_connected _ _ _ _ _ Hc). cbv zeta.
    rewrite send_request_cases, Hreq, Hd. reflexivity.
Qed.

(** X12: on a connected transport, a call whose method is not a str or whose
    params are not a mapping takes the next id and then fails before
    anything is written or read: [send_message] raises a [TransportError]
    that wraps the [ValueError] of [create_request], whose text is the
    message of [validate_request]. *)
Theorem send_message_malformed_request (method params : pyval) (self : StdioTransport) :
  connected self = true ->
  isinstance_str method = false \/ isinstance_dict params = false ->
  exists msg,
    ProtocolValidator.validate_request
      (request_envelope method params (VInt (request_id self + 1))) = Some msg
    /\ snd (send_message dumps loads method params self) =
       Raise (Transport_exn
                (mkTransportError
                   (ErrorSending (ValueError (String.append "Invalid request: " msg)))
                   (Some (ValueError (String.append "Invalid request: " msg)))))
    /\ request_id (fst (send_message dumps loads method params self)) = request_id self + 1
    /\ wire (fst (send_message dumps loads method params self)) = wire self
    /\ reader (fst (send_message dumps loads method params self)) = reader self.
Proof.
  intros Hc Hbad.
  assert (exists msg,
             ProtocolValidator.validate_request
               (request_envelope method params (VInt (request_id self + 1))) = Some msg
             /\ msg <> EmptyString) as (msg & Hv & Hne).
  { unfold ProtocolValidator.validate_request. cbn.
    destruct Hbad as [Hm|Hp].
    - rewrite Hm. cbn. eexists. split; [reflexivity|discriminate].
    - destruct (isinstance_str method); cbn;
        [rewrite Hp; cbn|]; eexists; (split; [reflexivity|discriminate]). }
  exists msg. split; [exact Hv|].
  rewrite (send_message_connected _ _ _ _ _ Hc). cbv zeta.
  rewrite send_request_cases. unfold create_request. rewrite Hv.
  destruct msg as [|c msg]; [contradiction|]. cbn. repeat split.
Qed.

(** *** What a streaming call yields *)









(** X15: a streaming call does not get past the drain either.  Whatever the
    state of the transport, the method and the parameters, the first
    resumption of the generator ends it with a [TransportError], so the
    consumer receives no envelope, and nothing is read.  On a connected
    transport, for a request that [create_request] accepts and [json.dumps]
    serialises, that resumption takes the next id, hands the request to the
    pipe and raises "Error in streaming message", whose cause is the
    [AttributeError] of [drain()] (or the exception of [write()] when that
    raised already). *)
Theorem send_streaming_message_stops_at_drain (n : nat) (method params : pyval)
  (self : StdioTransport) :
  (exists e,
      async_for dumps loads (S n) (Created method params) self =
      (fst (fst (anext dumps loads (Created method params) self)), [],
       Some (Failed (Transport_exn e))))
  /\ reader (fst (fst (anext dumps loads (Created method params) self))) = reader self
  /\ snd (fst (anext dumps loads (Created method params) self)) = Finished
  /\ (forall request,
         connected self = true ->
         create_request method params (VInt (request_id self + 1)) = Ok request ->
         dumps request = Ok tt ->
         anext dumps loads (Created method params) self =
         (hand_over request (with_request_id (request_id self + 1) self), Finished,
          Raised (Transport_exn
                    (mkTransportError (ErrorStreaming (write_error self))
                       (Some (write_error self)))))).
Proof.
  split; [|split; [|split]].
  - rewrite async_for_step.
    destruct (anext_created_finishes dumps loads method params self)
      as (self' & e & -> & _).
    now exists e.
  - destruct (anext_created_finishes dumps loads method params self)
      as (self' & e & -> & Hr & _).
    exact Hr.
  - destruct (anext_created_finishes dumps loads method params self)
      as (self' & e & -> & _).
    reflexivity.
  - intros request Hc Hreq Hd.
    rewrite (anext_created_connected _ _ _ _ _ Hc). cbv zeta.
    rewrite send_request_cases, Hreq, Hd. reflexivity.
Qed.

End WithJson.

Import Scenario.

(** The loop of the transport has been closed before [disconnect]. *)
Lemma disconnect_outcomes_witness :
  let self := fst (connect (PipesOk (feed [] Eof) (WritePipe Takes true))
                     (init (Some (Running Exits false)))) in
  fst (disconnect self) = with_writer (Some (WritePipe Drops false)) self
  /\ snd (disconnect (fst (disconnect self))) = true.
Proof.
  cbv zeta.
  apply (proj1 (proj2 (disconnect_outcomes
                         (fst (connect (PipesOk (feed [] Eof) (WritePipe Takes true))
                                 (init (Some (Running Exits false)))))))).
  reflexivity.
Defined.

(** [connect] fails on the write pipe: the child is not stopped. *)
Lemma disconnect_reaps_only_with_writer_witness :
  process (fst (disconnect (fst (connect (WritePipeFails (feed ["hello"] Eof))
                                   (init (Some (Running Exits false))))))) =
  Some (Running Exits false).
Proof.
  apply (proj2 (proj2 (disconnect_reaps_only_with_writer
                         (init (Some (Running Exits false)))))
           (WritePipeFails (feed ["hello"] Eof)));
    reflexivity.
Defined.

(** The child has the answer ready; it is not read. *)
Lemma send_message_stops_at_drain_witness :
  send_message dumps_any (table_loads stream_table) (VStr "ping") (VDict [])
    (connected_to ["final-1"]) =
  (hand_over (request_envelope (VStr "ping") (VDict []) (VInt 1))
     (with_request_id 1 (connected_to ["final-1"])),
   Raise (no_drain ErrorSending)).
Proof.
  apply (proj2 (proj2 (proj2 (send_message_stops_at_drain dumps_any
                                (table_loads stream_table) (VStr "ping") (VDict [])
                                (connected_to ["final-1"])))));
    reflexivity.
Defined.

Lemma send_message_malformed_request_witness :
  exists msg,
    ProtocolValidator.validate_request
      (request_envelope (VInt 5) (VDict []) (VInt 1)) = Some msg
    /\ snd (send_message dumps_any (table_loads stream_table) (VInt 5) (VDict [])
              (connected_to ["extra"])) =
       Raise (Transport_exn
                (mkTransportError
                   (ErrorSending (ValueError (String.append "Invalid request: " msg)))
                   (Some (ValueError (String.append "Invalid request: " msg)))))
    /\ request_id (fst (send_message dumps_any (table_loads stream_table) (VInt 5)
                          (VDict []) (connected_to ["extra"]))) = 1
    /\ wire (fst (send_message dumps_any (table_loads stream_table) (VInt 5) (VDict [])
                    (connected_to ["extra"]))) = []
    /\ reader (fst (send_message dumps_any (table_loads stream_table) (VInt 5) (VDict [])
                      (connected_to ["extra"]))) = Some (feed ["extra"] Eof).
Proof.
  apply (send_message_malformed_request dumps_any (table_loads stream_table) (VInt 5)
           (VDict []) (connected_to ["extra"])).
  - reflexivity.
  - left. reflexivity.
Defined.

(** The child has a complete stream ready; none of it is read. *)
Lemma send_streaming_message_stops_at_drain_witness :
  anext dumps_any (table_loads stream_table) (Created (VStr "tools/call") (VDict []))
    (connected_to ["chunk-1"; "final-1"]) =
  (hand_over (request_envelope (VStr "tools/call") (VDict []) (VInt 1))
     (with_request_id 1 (connected_to ["chunk-1"; "final-1"])),
   Finished, Raised (no_drain ErrorStreaming)).
Proof.
  apply (proj2 (proj2 (proj2 (send_streaming_message_stops_at_drain dumps_any
                                (table_loads stream_table) 0 (VStr "tools/call") (VDict [])
                                (connected_to ["chunk-1"; "final-1"])))));
    reflexivity.
Defined.

End StdioMoreFacts.

(** ** More on the protocol client *)

Module ClientMoreFacts.
Import Exceptions Client ClientMore Replies MoreReplies Streams MoreStreams Scenario.

#[local] Arguments InitializationError : simpl never.
#[local] Arguments contains : simpl never.
#[local] Arguments subscript : simpl never.
#[local] Arguments get : simpl never.

Section WithTransport.

Context {T : Type} {ops : Transport T}.

(** X17: [initialize] by what the transport answers.  When [connect]
    answers [False] it raises "Failed to connect to server" and sends
    nothing.  A [TransportError] of [connect] or of [send_message] comes out
    as an [InitializationError] whose message is "Transport error: " and the
    message of that error, and which carries its cause.  When the answer is
    a mapping with a [result], that member is stored as the capabilities and
    returned, even if the answer has an [error] as well; when it has no
    [result] and an [error] that is a mapping, [initialize] raises an
    [InitializationError] with the message and the data of that error, and
    the capabilities stay as they were. *)
Theorem initialize_outcomes (self : StandardProtocolClient T) :
  let connected := connect (transport self) in
  let sent :=
    send_message (VStr MessageMethod.INITIALIZE) initialize_params (fst connected) in
  (snd connected = Ok false ->
   initialize self =
   (with_transport (fst connected) self,
    Raise (Protocol_exn
             (InitializationError (Text "Failed to connect to server") (Data VNone)))))
  /\ (forall e, snd connected = Raise (Transport_exn e) ->
                initialize self =
                (with_transport (fst connected) self,
                 Raise (Protocol_exn
                          (InitializationError (TransportText (TransportBase.message e))
                             (Cause (cause e))))))
  /\ (snd connected = Ok true ->
      (forall e, snd sent = Raise (Transport_exn e) ->
                 initialize self =
                 (with_transport (fst sent) self,
                  Raise (Protocol_exn
                           (InitializationError (TransportText (TransportBase.message e))
                              (Cause (cause e))))))
      /\ (forall d result,
             snd sent = Ok (VDict d) -> dict_get d "result" = Some result ->
             initialize self = (mkClient (fst sent) (Some result), Ok result))
      /\ (forall d error,
             snd sent = Ok (VDict d) -> dict_get d "result" = None ->
             dict_get d "error" = Some (VDict error) ->
             initialize self =
             (with_transport (fst sent) self,
              Raise (Protocol_exn
                       (InitializationError (server_message error)
                          (Data (dict_get_default error "data" VNone))))))).
Proof.
  cbv zeta. unfold initialize.
  destruct (connect (transport self)) as [t c]. cbn [fst snd].
  split; [|split].
  - now intros ->.
  - now intros e ->.
  - intros ->. destruct (send_message _ _ t) as [t' r]. cbn [fst snd].
    unfold initialize_response, from_transport, from_python, bind.
    split; [|split].
    + now intros e ->.
    + intros d result -> Hr.
      unfold contains, subscript, dict_contains. now rewrite Hr.
    + intros d error -> Hr He.
      unfold contains, subscript, get, dict_contains, server_message.
      now rewrite Hr, He.
Qed.

(** X18: [call_tool] never lets a [TransportError] out, and every protocol
    error it raises is an [InvalidToolError] with the code 1100 or a
    [ToolExecutionError] with the code 1101: the code the server sent, when
    it is not 1100, does not reach the caller.  When the answer has a
    [result], that member is what [call_tool] returns, even if the answer
    has an [error] as well. *)
Theorem call_tool_outcomes (tool_name : string) (params : pyval)
  (self : StandardProtocolClient T) :
  match snd (call_tool tool_name params self) with
  | Ok _ => True
  | Raise (Other_exn (Transport_exn _)) => False
  | Raise (Other_exn (Builtin_exn _)) => True
  | Raise (Other_exn CancelledError) => True
  | Raise (Protocol_exn e) =>
      (class_of e = InvalidToolError_class /\ code e = VInt 1100)
      \/ (class_of e = ToolExecutionError_class /\ code e = VInt 1101)
  end
  /\ (forall response result,
         snd (send_message (VStr MessageMethod.TOOLS_CALL)
                (call_tool_params tool_name params) (transport self)) = Ok response ->
         contains "result" response = Ok true ->
         subscript response "result" = Ok result ->
         snd (call_tool tool_name params self) = Ok result).
Proof.
  unfold call_tool.
  destruct (send_message _ _ _) as [t r]. cbn [snd].
  unfold call_tool_except, call_tool_response, from_transport, from_python, bind.
  split.
  - destruct r as [response|[e|e|]]; cbn; auto.
    destruct (contains "result" response) as [[]|e]; cbn; auto.
    + destruct (subscript response "result"); cbn; auto.
    + destruct (contains "error" response) as [[]|e]; cbn; auto.
      destruct (subscript response "error") as [error|e]; cbn; auto.
      destruct (get error "code" _) as [c|e]; cbn; auto.
      destruct (eq_int c 1100).
      * destruct (get error "data" VNone); cbn; auto.
      * destruct (get error "message" _); cbn; auto.
        destruct (get error "data" VNone); cbn; auto.
  - intros response result -> Hc Hs. now rewrite Hc, Hs.
Qed.

Lemma list_response_result (field : string) (d r : pydict) :
  dict_get d "result" = Some (VDict r) ->
  get_except (list_response field (Ok (VDict d))) =
  Ok (dict_get_default r field (VList [])).
Proof.
  intros Hr. unfold list_response, from_transport, from_python, bind.
  unfold contains, subscript, get, dict_contains. now rewrite Hr.
Qed.

Lemma list_response_empty (field : string) (d : pydict) :
  dict_get d "result" = None -> dict_get d "error" = None ->
  get_except (list_response field (Ok (VDict d))) = Ok (VList []).
Proof.
  intros Hr He. unfold list_response, from_transport, from_python, bind.
  unfold contains, subscript, get, dict_contains. now rewrite Hr, He.
Qed.

Lemma list_response_not_a_mapping (field : string) (d : pydict) (v : pyval) :
  dict_get d "result" = Some v -> isinstance_dict v = false ->
  get_except (list_response field (Ok (VDict d))) =
  Raise (Other_exn (Builtin_exn AttributeError)).
Proof.
  intros Hr Hv. unfold list_response, from_transport, from_python, bind.
  unfold contains, subscript, get, dict_contains. rewrite Hr.
  destruct v; try reflexivity. discriminate Hv.
Qed.

Lemma list_response_transport_error (field : string) (e : TransportError) :
  get_except (list_response field (Raise (Transport_exn e))) =
  Raise (Protocol_exn
           (MCPProtocolError_new (TransportText (TransportBase.message e)) (VInt 0)
              (Cause (cause e)))).
Proof. reflexivity. Qed.

Lemma list_response_outcomes (field : string) (answer : result exn pyval) :
  (forall d r, answer = Ok (VDict d) -> dict_get d "result" = Some (VDict r) ->
               get_except (list_response field answer) =
               Ok (dict_get_default r field (VList [])))
  /\ (forall d, answer = Ok (VDict d) ->
                dict_get d "result" = None -> dict_get d "error" = None ->
                get_except (list_response field answer) = Ok (VList []))
  /\ (forall d v, answer = Ok (VDict d) ->
                  dict_get d "result" = Some v -> isinstance_dict v = false ->
                  get_except (list_response field answer) =
                  Raise (Other_exn (Builtin_exn AttributeError)))
  /\ (forall e, answer = Raise (Transport_exn e) ->
                get_except (list_response field answer) =
                Raise (Protocol_exn
                         (MCPProtocolError_new
                            (TransportText (TransportBase.message e)) (VInt 0)
                            (Cause (cause e))))).
Proof.
  repeat split; intros; subst answer;
    eauto using list_response_result, list_response_empty,
      list_response_not_a_mapping, list_response_transport_error.
Qed.

(** X19: [get_tools], [get_prompts] and [get_resources] return the member
    [tools], [prompts], [resources] of the result, and the empty list when
    the result has no such member or when the answer has neither [result]
    nor [error].  A result that is not a mapping makes them raise
    [AttributeError], which is not a protocol error; a [TransportError] of
    the transport comes out as an [MCPProtocolError] with the code 0. *)
Theorem list_calls_outcomes (self : StandardProtocolClient T) :
  let answers_of method := snd (send_message (VStr method) (VDict []) (transport self)) in
  let calls :=
    [ (TOOLS_LIST, "tools", snd (get_tools self));
      (PROMPTS_LIST, "prompts", snd (get_prompts self));
      (RESOURCES_LIST, "resources", snd (get_resources self)) ] in
  Forall (fun '(method, field, outcome) =>
            (forall d r, answers_of method = Ok (VDict d) ->
                         dict_get d "result" = Some (VDict r) ->
                         outcome = Ok (dict_get_default r field (VList [])))
            /\ (forall d, answers_of method = Ok (VDict d) ->
                          dict_get d "result" = None -> dict_get d "error" = None ->
                          outcome = Ok (VList []))
            /\ (forall d v, answers_of method = Ok (VDict d) ->
                            dict_get d "result" = Some v -> isinstance_dict v = false ->
                            outcome = Raise (Other_exn (Builtin_exn AttributeError)))
            /\ (forall e, answers_of method = Raise (Transport_exn e) ->
                          outcome =
                          Raise (Protocol_exn
                                   (MCPProtocolError_new
                                      (TransportText (TransportBase.message e)) (VInt 0)
                                      (Cause (cause e))))))
         calls.
Proof.
  cbv zeta. unfold get_tools, get_prompts, get_resources.
  constructor; [|constructor; [|constructor; [|constructor]]];
    destruct (send_message _ _ _) as [t r]; cbn [snd]; apply list_response_outcomes.
Qed.

End WithTransport.

Section OnStdio.

Variable dumps : pydict -> result py_exception unit.
Variable loads : string -> Stdio.decoded.
Variable env : Stdio.pipes.

Let ops : Transport Stdio.StdioTransport := Client.stdio dumps loads env.

(** X20: over the stdio transport [ping] answers [False], whatever the state
    of the transport and whatever the server would answer: [send_message]
    raises before it reads. *)
Theorem ping_on_stdio (self : StandardProtocolClient Stdio.StdioTransport) :
  snd (@ping _ ops self) = Ok false.
Proof.
  unfold ping. cbn [send_message ops Client.stdio].
  destruct (StdioFacts.send_message_raises dumps loads (VStr PING) (VDict [])
              (transport self)) as [H|[e H]];
    destruct (Stdio.send_message dumps loads (VStr PING) (VDict []) (transport self))
      as [t r]; cbn [snd] in *; now rewrite H.
Qed.

(** X21: over the stdio transport [shutdown] answers [False] and never
    disconnects: [send_message] raises on the shutdown notification, so the
    transport is left as that call left it, with the reader, the writer and
    the child process it had. *)
Theorem shutdown_on_stdio (self : StandardProtocolClient Stdio.StdioTransport) :
  let sent :=
    Stdio.send_message dumps loads (VStr MessageMethod.SHUTDOWN) (VDict [])
      (transport self) in
  @shutdown _ ops self = (with_transport (fst sent) self, Ok false)
  /\ Stdio.reader (fst sent) = Stdio.reader (transport self)
  /\ Stdio.writer (fst sent) = Stdio.writer (transport self)
  /\ Stdio.process (fst sent) = Stdio.process (transport self).
Proof.
  cbv zeta. split.
  - unfold shutdown. cbn [send_message ops Client.stdio].
    destruct (StdioFacts.send_message_raises dumps loads (VStr MessageMethod.SHUTDOWN)
                (VDict []) (transport self)) as [H|[e H]];
      destruct (Stdio.send_message dumps loads (VStr MessageMethod.SHUTDOWN) (VDict [])
                  (transport self)) as [t r]; cbn [fst snd] in *; now rewrite H.
  - pose proof (StdioMoreFacts.send_message_stops_at_drain dumps loads
                  (VStr MessageMethod.SHUTDOWN) (VDict []) (transport self))
      as (_ & Hr & Hw & _).
    split; [exact Hr|]. split; [exact Hw|].
    destruct (connected (transport self)) eqn:Hc.
    + rewrite (StdioFacts.send_message_connected _ _ _ _ _ Hc). cbv zeta.
      pose proof (StdioFacts.send_request_frame dumps (VStr MessageMethod.SHUTDOWN)
                    (VDict []) (Stdio.request_id (transport self) + 1)
                    (Stdio.with_request_id (Stdio.request_id (transport self) + 1)
                       (transport self))) as (Hp & _).
      destruct (Stdio.send_request _ _ _ _ _) as [self2 [u|e]]; exact Hp.
    + now rewrite (StdioFacts.send_message_not_connected _ _ _ _ _ Hc).
Qed.

End OnStdio.

Section Streaming.

Variable dumps : pydict -> result py_exception unit.
Variable loads : string -> Stdio.decoded.

Let stream_ops : StreamingTransport Stdio.StdioTransport Stdio.generator :=
  stdio_streaming dumps loads.

Lemma streaming_response_result (tool_name : string) (response result : pyval) :
  result_member response = Some result ->
  streaming_response tool_name response = Ok (Some result).
Proof.
  destruct response as [| | | | | |d]; try discriminate. cbn. intros Hr.
  unfold streaming_response, from_python, bind, contains, subscript, dict_contains.
  now rewrite Hr.
Qed.

Lemma streaming_response_error (tool_name : string) (d error : pydict) :
  dict_get d "result" = None -> dict_get d "error" = Some (VDict error) ->
  streaming_response tool_name (VDict d) = Raise (Protocol_exn (tool_error tool_name error)).
Proof.
  intros Hr He.
  unfold streaming_response, from_python, bind, contains, subscript, get, dict_contains,
    tool_error.
  rewrite Hr, He. change ErrorCodes.INVALID_TOOL with 1100.
  now destruct (eq_int (dict_get_default error "code" (VInt 0)) 1100).
Qed.


End Streaming.

Section AnyStream.

Context {T G : Type} {stream_ops : StreamingTransport T G}.

Lemma received_nothing (k : nat) (g : G) (t t' : T) :
  received k g t = (t', [], None) -> t' = t.
Proof.
  destruct k as [|k]; cbn; [now intros [= <-]|].
  destruct (resume g t) as [[t1 g1] [response| |e]]; try discriminate.
  destruct (received k g1 t1) as [[t2 rs] c]. discriminate.
Qed.

(** X23: an error in the middle of a stream, on any streaming transport.
    When the stream of the transport yields responses that have a [result]
    member and then an error envelope (a mapping without [result] whose
    [error] is a mapping), the consumer of [call_streaming_tool] gets the
    results of the responses before the error envelope, in their order, and
    then [InvalidToolError] when the code of the error equals 1100,
    [ToolExecutionError] otherwise; the stream of the transport is not
    resumed after the error envelope. *)
Theorem call_streaming_tool_error (tool_name : string) (d error : pydict) (k : nat) :
  dict_get d "result" = None ->
  dict_get d "error" = Some (VDict error) ->
  forall (n : nat) (g : G) (t t' : T) (responses : list pyval),
    (k <= n)%nat ->
    received k g t = (t', responses ++ [VDict d], None) ->
    Forall (fun response => has_result response = true) responses ->
    streaming_results n tool_name g t =
    (t', results_of responses, Some (Aborted (Protocol_exn (tool_error tool_name error)))).
Proof.
  intros Hres Herr.
  pose proof (streaming_response_error tool_name d error Hres Herr) as Hbad.
  induction k as [|k IH]; intros n g t t' responses Hk Ha Hall.
  - cbn in Ha. injection Ha as _ Ha. now destruct responses.
  - destruct n as [|n]; [lia|].
    cbn [streaming_results received] in *.
    destruct (resume g t) as [[t1 g1] [response| |e]]; try discriminate.
    destruct (received k g1 t1) as [[t2 rs] c2] eqn:Hrest.
    injection Ha as -> Hresp ->.
    destruct responses as [|r0 responses]; cbn [app] in Hresp; injection Hresp as -> ->.
    + apply received_nothing in Hrest as ->. now rewrite Hbad.
    + inversion Hall as [|? ? Hr0 Hall']; subst.
      unfold has_result in Hr0.
      destruct (result_member r0) as [result|] eqn:Hm; [|discriminate].
      rewrite (streaming_response_result _ _ _ Hm).
      rewrite (IH n g1 t1 t' responses) by (lia || assumption).
      unfold results_of. cbn [flat_map]. now rewrite Hm.
Qed.

End AnyStream.

(** The server answers with its capabilities. *)
Lemma initialize_outcomes_witness :
  @initialize _ scripted (served [Ok init_reply]) =
  (mkClient (mkScripted [] [] [(VStr "initialize", initialize_params)]) (Some echo_only),
   Ok echo_only).
Proof.
  apply (proj1 (proj2 (proj2 (proj2 (@initialize_outcomes _ scripted
                                       (served [Ok init_reply]))) eq_refl))
           [("jsonrpc", VStr "2.0"); ("result", echo_only); ("id", VInt 1)]);
    reflexivity.
Defined.

(** The server answers the call with a result. *)
Lemma call_tool_outcomes_witness :
  snd (@call_tool _ scripted "echo" (VDict []) (served [Ok call_reply])) =
  Ok (VDict [("output", VStr "done")]).
Proof.
  apply (proj2 (@call_tool_outcomes _ scripted "echo" (VDict []) (served [Ok call_reply]))
           call_reply);
    reflexivity.
Defined.


(** One chunk with a result, then the server reports that the tool does not
    exist; the last step of the script is not reached. *)
Lemma call_streaming_tool_error_witness :
  @call_streaming_tool _ _ scripted_streaming 5 "missing" (VDict [])
    (mkScripted [] [Yielded (chunk_reply "he"); Yielded (error_reply 1100 "Invalid tool");
                    Yielded (chunk_reply "llo")] []) =
  (mkScripted [] [Yielded (chunk_reply "llo")] [], [VStr "he"],
   Some (Aborted (Protocol_exn (InvalidToolError "missing" (Data VNone))))).
Proof.
  apply (@call_streaming_tool_error _ _ scripted_streaming "missing"
           [("jsonrpc", VStr "2.0");
            ("error", VDict [("code", VInt 1100); ("message", VStr "Invalid tool")]);
            ("id", VInt 1)]
           [("code", VInt 1100); ("message", VStr "Invalid tool")] 2
           eq_refl eq_refl 5 tt
           (mkScripted [] [Yielded (chunk_reply "he");
                           Yielded (error_reply 1100 "Invalid tool");
                           Yielded (chunk_reply "llo")] [])
           (mkScripted [] [Yielded (chunk_reply "llo")] []) [chunk_reply "he"]).
  - lia.
  - reflexivity.
  - repeat constructor.
Defined.

End ClientMoreFacts.

(** ** The dependency injection container *)

Module DiFacts.
Import Di.

Section WithObjects.

Variable Any : Type.
Variable Factory : Type.
Variable call : Factory -> nat -> Any.

Lemma lookup_store_same {V} (d : list (string * V)) (k : string) (v : V) :
  lookup (store d k v) k = Some v.
Proof.
  induction d as [|[k' v'] d IH]; cbn.
  - now rewrite String.eqb_refl.
  - destruct (String.eqb k k') eqn:E; cbn; now rewrite E.
Qed.

Lemma lookup_store_other {V} (d : list (string * V)) (k j : string) (v : V) :
  j <> k -> lookup (store d k v) j = lookup d j.
Proof.
  intros Hne. induction d as [|[k' v'] d IH]; cbn.
  - destruct (String.eqb_spec j k); [contradiction|reflexivity].
  - destruct (String.eqb_spec k k') as [<-|Hk]; cbn.
    + destruct (String.eqb_spec j k); [contradiction|reflexivity].
    + now rewrite IH.
Qed.

(** X24: an implementation that has been registered is what [resolve]
    returns for its interface, whatever was registered before (a factory for
    the same interface included, which is then not called), and [resolve]
    leaves the container as it is; registering under one interface does not
    change what [resolve] returns for another. *)
Theorem register_then_resolve (cls : Container Any Factory) (interface : string)
  (implementation : Any) :
  resolve call interface (register interface implementation None cls) =
  (register interface implementation None cls, Ok implementation)
  /\ (forall other factory,
         other <> interface ->
         snd (resolve call other (register interface implementation factory cls)) =
         snd (resolve call other cls)).
Proof.
  split.
  - unfold Di.resolve, Di.register. cbn. rewrite lookup_store_same.
    now destruct (lookup (_factories cls) interface).
  - intros other factory Hne. unfold Di.resolve, Di.register.
    destruct factory as [f|]; cbn; rewrite lookup_store_other by exact Hne;
      destruct (lookup (_factories cls) other), (lookup (_instances cls) other);
      reflexivity.
Qed.

(** X25: a factory is called lazily and once.  When no instance is stored
    for the interface, registering a factory calls nothing; the first
    [resolve] calls the factory and stores what it returns, and the second
    [resolve] returns that same object without another call.  When an
    instance is already stored for the interface, a factory registered for
    it afterwards is never called: [resolve] keeps returning the stored
    instance. *)
Theorem factory_called_once (cls : Container Any Factory) (interface : string)
  (implementation : Any) (factory : Factory) :
  let registered := register interface implementation (Some factory) cls in
  calls registered = calls cls
  /\ (lookup (_instances cls) interface = None ->
      let first := resolve call interface registered in
      snd first = Ok (call factory (calls cls))
      /\ calls (fst first) = S (calls cls)
      /\ resolve call interface (fst first) = (fst first, Ok (call factory (calls cls))))
  /\ (forall instance,
         lookup (_instances cls) interface = Some instance ->
         resolve call interface registered = (registered, Ok instance)).
Proof.
  cbv zeta. unfold Di.resolve, Di.register. cbn. rewrite lookup_store_same.
  split; [reflexivity|split].
  - intros ->. cbn. rewrite !lookup_store_same. repeat split.
  - intros instance ->. reflexivity.
Qed.

(** X26: [resolve] raises [KeyError] exactly for an interface that has
    neither an instance nor a factory, and then leaves the container as it
    is; after [clear] it raises for every interface. *)
Theorem resolve_unregistered (cls : Container Any Factory) (interface : string) :
  (snd (resolve call interface cls) = Raise (KeyError interface)
   <-> lookup (_instances cls) interface = None
       /\ lookup (_factories cls) interface = None)
  /\ (lookup (_instances cls) interface = None ->
      lookup (_factories cls) interface = None ->
      resolve call interface cls = (cls, Raise (KeyError interface)))
  /\ resolve call interface (clear cls) = (clear cls, Raise (KeyError interface)).
Proof.
  unfold Di.resolve, Di.clear.
  destruct (lookup (_factories cls) interface) as [f|],
           (lookup (_instances cls) interface) as [i|]; cbn;
    (split; [split; [intros [=]; auto|intros [[=] [=]]; auto]|]);
    (split; [intros [=] [=]; auto|reflexivity]).
Qed.

End WithObjects.

(** A factory for a service that no instance has been stored for. *)
Lemma factory_called_once_witness :
  let cls := mkContainer (Any:=nat) (Factory:=nat) [] [] 3 in
  let call := fun (f n : nat) => (f + n)%nat in
  let first := resolve call "server_service" (register "server_service" 0%nat (Some 7%nat) cls) in
  snd first = Ok 10%nat
  /\ calls (fst first) = 4%nat
  /\ resolve call "server_service" (fst first) = (fst first, Ok 10%nat).
Proof.
  exact (proj1 (proj2 (factory_called_once nat nat (fun f n => f + n)%nat
                         (mkContainer (Any:=nat) (Factory:=nat) [] [] 3)
                         "server_service" 0%nat 7%nat)) eq_refl).
Defined.

Lemma resolve_unregistered_witness :
  resolve (fun (f : nat) (n : nat) => f) "server_service" (mkContainer (Any:=nat) (Factory:=nat) [] [] 0) =
  (mkContainer (Any:=nat) (Factory:=nat) [] [] 0, Raise (KeyError "server_service")).
Proof.
  apply (proj1 (proj2 (resolve_unregistered nat nat (fun f n => f)
                         (mkContainer (Any:=nat) (Factory:=nat) [] [] 0) "server_service")));
    reflexivity.
Defined.

Lemma register_then_resolve_witness :
  snd (resolve (fun (f : nat) (n : nat) => f) "provider_config"
         (register "config_service" 1%nat None (mkContainer (Any:=nat) (Factory:=nat) [] [] 0))) =
  snd (resolve (fun (f : nat) (n : nat) => f) "provider_config"
         (mkContainer (Any:=nat) (Factory:=nat) [] [] 0)).
Proof.
  apply (proj2 (register_then_resolve nat nat (fun f n => f)
                  (mkContainer (Any:=nat) (Factory:=nat) [] [] 0) "config_service" 1%nat)).
  discriminate.
Defined.

End DiFacts.

(** ** The configuration service *)

Module ConfigFacts.
Import Config ConfigShape.

Lemma dict_get_set_same (d : pydict) (k : string) (v : pyval) :
  dict_get (dict_set d k v) k = Some v.
Proof.
  induction d as [|[k' v'] d IH]; cbn.
  - now rewrite String.eqb_refl.
  - destruct (String.eqb k k') eqn:E; cbn; now rewrite E.
Qed.

Lemma dict_get_set_other (d : pydict) (k j : string) (v : pyval) :
  j <> k -> dict_get (dict_set d k v) j = dict_get d j.
Proof.
  intros Hne. induction d as [|[k' v'] d IH]; cbn.
  - destruct (String.eqb_spec j k); [contradiction|reflexivity].
  - destruct (String.eqb_spec k k') as [<-|Hk]; cbn.
    + destruct (String.eqb_spec j k); [contradiction|reflexivity].
    + now rewrite IH.
Qed.

Lemma dict_get_del_same (d : pydict) (k : string) :
  dict_get (dict_del d k) k = None.
Proof.
  induction d as [|[k' v'] d IH]; cbn; [reflexivity|].
  destruct (String.eqb k k') eqn:E; cbn; [exact IH|now rewrite E].
Qed.

Lemma dict_get_del_other (d : pydict) (k j : string) :
  j <> k -> dict_get (dict_del d k) j = dict_get d j.
Proof.
  intros Hne. induction d as [|[k' v'] d IH]; cbn; [reflexivity|].
  destruct (String.eqb_spec k k') as [<-|Hk]; cbn.
  - destruct (String.eqb_spec j k); [contradiction|exact IH].
  - now rewrite IH.
Qed.

Lemma dict_set_set (d : pydict) (k : string) (v w : pyval) :
  dict_set (dict_set d k v) k w = dict_set d k w.
Proof.
  induction d as [|[k' v'] d IH]; cbn.
  - now rewrite String.eqb_refl.
  - destruct (String.eqb k k') eqn:E; cbn; rewrite E; [reflexivity|now rewrite IH].
Qed.

Lemma well_formed_get (d : pydict) :
  well_formed (VDict d) = true ->
  dict_get_default d "mcpServers" (VDict []) = VDict (servers_of d).
Proof.
  unfold well_formed, dict_get_default, servers_of.
  now destruct (dict_get d "mcpServers") as [[]|].
Qed.

Lemma get_server_config_well_formed (name : string) (d : pydict) :
  well_formed (VDict d) = true ->
  get_server_config name (mkConfigService (VDict d)) =
  Ok (dict_get_default (servers_of d) name VNone).
Proof.
  intros Hwf. unfold get_server_config, servers, get, bind. cbn [config].
  now rewrite (well_formed_get d Hwf).
Qed.

Lemma has_server_well_formed (name : string) (d : pydict) :
  well_formed (VDict d) = true ->
  has_server name (mkConfigService (VDict d)) = Ok (dict_contains name (servers_of d)).
Proof.
  intros Hwf. unfold has_server, servers, get, bind, contains. cbn [config].
  now rewrite (well_formed_get d Hwf).
Qed.

Lemma saved_result (cfg : pyval) (world : disk) :
  saved cfg world =
  (mkConfigService cfg, fst (save_config (mkConfigService cfg) world),
   Ok (saves cfg world)).
Proof.
  unfold saved, save_config, saves. cbn [config].
  destruct (dump world) as [json_dump|]; [|reflexivity].
  now destruct (json_dump cfg).
Qed.

Lemma add_server_well_formed (name : string) (server : pyval) (d : pydict)
  (world : disk) :
  well_formed (VDict d) = true ->
  add_server name server (mkConfigService (VDict d)) world =
  saved (with_servers d (dict_set (servers_of d) name server)) world.
Proof.
  intros Hwf. unfold add_server, set_server, servers_of, with_servers.
  unfold contains, subscript, setitem, bind, dict_contains. cbn [config].
  cbn in Hwf.
  destruct (dict_get d "mcpServers") as [[| | | | | |all]|] eqn:Hs; try discriminate Hwf.
  - rewrite Hs. reflexivity.
  - rewrite dict_get_set_same, dict_set_set. reflexivity.
Qed.

Lemma update_server_well_formed (name : string) (server : pyval) (d : pydict)
  (world : disk) :
  well_formed (VDict d) = true ->
  dict_contains name (servers_of d) = true ->
  update_server name server (mkConfigService (VDict d)) world =
  saved (with_servers d (dict_set (servers_of d) name server)) world.
Proof.
  intros Hwf Hin. unfold update_server.
  rewrite (has_server_well_formed name d Hwf), Hin.
  unfold set_server, servers_of, with_servers in *.
  unfold subscript, setitem, bind. cbn [config].
  destruct (dict_get d "mcpServers") as [[| | | | | |all]|] eqn:Hs; try discriminate Hin.
  reflexivity.
Qed.

Lemma remove_server_well_formed (name : string) (d : pydict) (world : disk) :
  well_formed (VDict d) = true ->
  dict_contains name (servers_of d) = true ->
  remove_server name (mkConfigService (VDict d)) world =
  saved (with_servers d (dict_del (servers_of d) name)) world.
Proof.
  intros Hwf Hin. unfold remove_server.
  rewrite (has_server_well_formed name d Hwf), Hin.
  unfold servers_of, with_servers in *.
  unfold subscript, setitem, delitem, bind. cbn [config].
  destruct (dict_get d "mcpServers") as [[| | | | | |all]|] eqn:Hs; try discriminate Hin.
  unfold dict_contains in Hin.
  destruct (dict_get all name); [|discriminate Hin].
  reflexivity.
Qed.

Lemma with_servers_well_formed (d all : pydict) :
  well_formed (with_servers d all) = true
  /\ servers_of (dict_set d "mcpServers" (VDict all)) = all.
Proof.
  unfold well_formed, with_servers, servers_of. now rewrite dict_get_set_same.
Qed.

(** X27: on a configuration that is a mapping whose [mcpServers] is absent
    or a mapping, [add_server] returns whether the dump to the file went
    through; whether or not it did, the server is in the configuration in
    memory afterwards: [get_server_config] returns it, and returns for every
    other name what it returned before. *)
Theorem add_server_then_get (name : string) (server : pyval) (self : ConfigService)
  (world : disk) :
  well_formed (config self) = true ->
  let '(self', world', r) := add_server name server self world in
  r = Ok (saves (config self') world)
  /\ get_server_config name self' = Ok server
  /\ (forall other, other <> name ->
                    get_server_config other self' = get_server_config other self)
  /\ well_formed (config self') = true.
Proof.
  destruct self as [cfg]. cbn [config]. intros Hwf.
  destruct cfg as [| | | | | |d]; try discriminate Hwf.
  rewrite (add_server_well_formed name server d world Hwf), saved_result.
  destruct (with_servers_well_formed d (dict_set (servers_of d) name server)) as [Hwf' Hs].
  unfold with_servers in *.
  rewrite !(get_server_config_well_formed _ _ Hwf'), Hs.
  split; [reflexivity|]. split; [|split; [|exact Hwf']].
  - unfold dict_get_default. now rewrite dict_get_set_same.
  - intros other Hne. rewrite (get_server_config_well_formed _ _ Hwf).
    rewrite (get_server_config_well_formed _ _ Hwf'), Hs.
    unfold dict_get_default. now rewrite dict_get_set_other.
Qed.

(** X28: [update_server] and [remove_server] act on a known server only.
    For a name that is not among the servers both return [False] and change
    neither the configuration in memory nor the file.  On a well-formed
    configuration and a name that is among the servers, they return whether
    the dump to the file went through; after [update_server] the server has
    the new configuration, after [remove_server] the name is not among the
    servers any more and [get_server_config] returns [None] for it; in both
    cases every other name has the configuration it had. *)
Theorem update_remove_known_server (name : string) (server : pyval)
  (self : ConfigService) (world : disk) :
  (has_server name self = Ok false ->
   update_server name server self world = (self, world, Ok false)
   /\ remove_server name self world = (self, world, Ok false))
  /\ (well_formed (config self) = true -> has_server name self = Ok true ->
      (let '(self', world', r) := update_server name server self world in
       r = Ok (saves (config self') world)
       /\ get_server_config name self' = Ok server
       /\ forall other, other <> name ->
                        get_server_config other self' = get_server_config other self)
      /\ (let '(self', world', r) := remove_server name self world in
          r = Ok (saves (config self') world)
          /\ has_server name self' = Ok false
          /\ get_server_config name self' = Ok VNone
          /\ forall other, other <> name ->
                           get_server_config other self' = get_server_config other self)).
Proof.
  split.
  - intros Hno. unfold update_server, remove_server. now rewrite Hno.
  - destruct self as [cfg]. cbn [config]. intros Hwf.
    destruct cfg as [| | | | | |d]; try discriminate Hwf.
    rewrite (has_server_well_formed name d Hwf). intros [= Hin].
    rewrite (update_server_well_formed name server d world Hwf Hin).
    rewrite (remove_server_well_formed name d world Hwf Hin).
    rewrite !saved_result.
    destruct (with_servers_well_formed d (dict_set (servers_of d) name server))
      as [Hwf1 Hs1].
    destruct (with_servers_well_formed d (dict_del (servers_of d) name)) as [Hwf2 Hs2].
    unfold with_servers in *.
    rewrite !(get_server_config_well_formed _ _ Hwf1), Hs1.
    rewrite !(get_server_config_well_formed _ _ Hwf2), Hs2.
    rewrite (has_server_well_formed _ _ Hwf2), Hs2.
    unfold dict_get_default, dict_contains.
    rewrite dict_get_set_same, dict_get_del_same.
    split; [split; [reflexivity|split; [reflexivity|]]
           |split; [reflexivity|split; [reflexivity|split; [reflexivity|]]]];
      intros other Hne; rewrite (get_server_config_well_formed _ _ Hwf).
    + rewrite (get_server_config_well_formed _ _ Hwf1), Hs1.
      unfold dict_get_default. now rewrite dict_get_set_other.
    + rewrite (get_server_config_well_formed _ _ Hwf2), Hs2.
      unfold dict_get_default. now rewrite dict_get_del_other.
Qed.

(** A server added to the default configuration, on a file that cannot be
    opened for writing. *)
Lemma add_server_then_get_witness :
  let '(self', world', r) := add_server "sqlite" (VDict [("command", VStr "uvx")])
                               fresh read_only in
  r = Ok false
  /\ get_server_config "sqlite" self' = Ok (VDict [("command", VStr "uvx")]).
Proof.
  pose proof (add_server_then_get "sqlite" (VDict [("command", VStr "uvx")])
                fresh read_only eq_refl) as H.
  destruct (add_server _ _ _ _) as [[self' world'] r].
  destruct H as (Hr & Hget & _). split; assumption.
Defined.

(** A name that is not among the servers. *)
Lemma update_remove_known_server_witness :
  (update_server "sqlite" VNone fresh healthy = (fresh, healthy, Ok false)
   /\ remove_server "sqlite" fresh healthy = (fresh, healthy, Ok false))
  /\ (let '(self', world', r) :=
        update_server "sqlite" (VDict [("command", VStr "npx")]) with_sqlite healthy in
      r = Ok true
      /\ get_server_config "sqlite" self' = Ok (VDict [("command", VStr "npx")]))
  /\ (let '(self', world', r) := remove_server "sqlite" with_sqlite healthy in
      r = Ok true /\ get_server_config "sqlite" self' = Ok VNone).
Proof.
  split; [|split].
  - apply (proj1 (update_remove_known_server "sqlite" VNone fresh healthy)).
    reflexivity.
  - pose proof (proj1 (proj2 (update_remove_known_server "sqlite"
                                (VDict [("command", VStr "npx")]) with_sqlite healthy)
                         eq_refl eq_refl)) as H.
    cbv in H |- *. destruct H as (Hr & Hget & _). split; assumption.
  - pose proof (proj2 (proj2 (update_remove_known_server "sqlite" VNone with_sqlite healthy)
                         eq_refl eq_refl)) as H.
    cbv in H |- *. destruct H as (Hr & _ & Hget & _). split; assumption.
Defined.

End ConfigFacts.

